(** * AmbrosusNode: the data model engine and its collaborators

    A shallow embedding of [src/services/data_model_engine.js] together with
    the parts of the bundle builder and of the account access definitions
    that the engine relies on.

    The engine is asynchronous JavaScript: every [await] on a repository or
    on the identity manager is an observable call to a collaborator.  The
    embedding keeps those calls as the nodes of a small program tree, so the
    order of the calls, their arguments and the point where an exception
    leaves the method can all be stated and proved. *)

From Stdlib Require Import List String Ascii ZArith Bool Lia DecimalString.
Import ListNotations.
Local Open Scope string_scope.
Local Open Scope Z_scope.
Set Warnings "-register-all".

(** ** JavaScript values

    Assets, events, bundles, accounts, requests and tokens are plain JSON
    documents in the source.  Numbers are integers here: timestamps, access
    levels, counts and block numbers. *)

Inductive value : Type :=
| VUndefined
| VNull
| VBool (b : bool)
| VNum (n : Z)
| VStr (s : string)
| VArr (l : list value)
| VObj (o : list (string * value)).

Definition object := list (string * value).

(** The kinds of exception the source throws: plain [Error], the four
    classes of [errors/errors.js], and the [TypeError] JavaScript itself
    raises when a property of [null] or [undefined] is read. *)

Inductive error : Type :=
| JsError
| TypeError
| ValidationError
| PermissionError
| NotFoundError
| InvalidParametersError.

Inductive result (A : Type) : Type :=
| Ok (a : A)
| Err (e : error).

Arguments Ok {A} a.
Arguments Err {A} e.

Definition rbind {A B} (r : result A) (f : A -> result B) : result B :=
  match r with
  | Ok a => f a
  | Err e => Err e
  end.

Definition is_undefined (v : value) : bool :=
  match v with VUndefined => true | _ => false end.

Definition is_null (v : value) : bool :=
  match v with VNull => true | _ => false end.

(** [!v] in JavaScript. *)
Definition falsy (v : value) : bool :=
  match v with
  | VUndefined | VNull => true
  | VBool b => negb b
  | VNum n => n =? 0
  | VStr s => String.eqb s ""
  | VArr _ | VObj _ => false
  end.

(** *** Objects as ordered key/value lists *)

Fixpoint lookup (k : string) (o : object) : value :=
  match o with
  | [] => VUndefined
  | (k', v) :: o' => if String.eqb k k' then v else lookup k o'
  end.

(** [o[k] = v] on an object: an existing key keeps its place. *)
Fixpoint setProp (k : string) (v : value) (o : object) : object :=
  match o with
  | [] => [(k, v)]
  | (k', v') :: o' =>
      if String.eqb k k' then (k, v) :: o' else (k', v') :: setProp k v o'
  end.

Definition keys (v : value) : list string :=
  match v with
  | VObj o => map fst o
  | _ => []
  end.

(** [v.k] where the receiver is known to be an object, and lodash-style
    safe access along a path. *)
Definition field (v : value) (k : string) : value :=
  match v with
  | VObj o => lookup k o
  | _ => VUndefined
  end.

Definition getPath (v : value) (path : list string) : value :=
  fold_left field path v.

(** [v.k] as JavaScript evaluates it: reading a property of [null] or
    [undefined] throws. *)
Definition prop (v : value) (k : string) : result value :=
  match v with
  | VUndefined | VNull => Err TypeError
  | _ => Ok (field v k)
  end.

Definition index_name (i : nat) : string :=
  NilZero.string_of_uint (Nat.to_uint i).

Fixpoint indexed (i : nat) (l : list value) : object :=
  match l with
  | [] => []
  | v :: l' => (index_name i, v) :: indexed (S i) l'
  end.

Fixpoint chars (s : string) : list value :=
  match s with
  | EmptyString => []
  | String c s' => VStr (String c EmptyString) :: chars s'
  end.

(** The own enumerable properties copied by an object spread [{...v}]. *)
Definition ownProperties (v : value) : object :=
  match v with
  | VObj o => o
  | VArr l => indexed 0 l
  | VStr s => indexed 0 (chars s)
  | _ => []
  end.

(** The object literal [{...v, k: x}]: a copy of the own properties of [v]
    with [k] set to [x]. *)
Definition spreadWith (v : value) (k : string) (x : value) : value :=
  VObj (setProp k x (ownProperties v)).

(** ** Calls to collaborators

    One constructor per method the engine invokes on the identity manager,
    on the three repositories and on the clock, indexed by the type of the
    answer.  Answers follow the interface of the repositories: a missing
    document is [VNull]. *)

Record NotBundled : Type := { assets : list value; events : list value }.
Record Proof : Type := { blockNumber : value }.

Inductive call : Type -> Type :=
| CreateKeyPair : call value
| NodePrivateKey : call string
| DateNow : call Z
| AccountCount : call Z
| AccountGet (address : value) : call value
| AccountStore (account : value) : call unit
| AccountUpdate (address partial : value) : call value
| StoreAsset (asset : value) : call unit
| GetAsset (assetId : value) : call value
| StoreEvent (event : value) : call unit
| GetEvent (eventId accessLevel : value) : call value
| FindEvents (params accessLevel : value) : call value
| BeginBundle (bundleStubId : value) : call NotBundled
| StoreBundle (bundle : value) : call unit
| EndBundle (bundleStubId bundleId : value) : call unit
| GetBundle (bundleId : value) : call value
| StoreBundleProofBlock (bundleId blockNumber : value) : call unit
| UploadProof (bundleId : value) : call Proof.

Inductive anycall : Type :=
| Called {X : Type} (c : call X).

(** The calls that write to a repository or to the ledger. *)
Definition mutating (c : anycall) : bool :=
  match c with
  | Called (AccountStore _) | Called (AccountUpdate _ _)
  | Called (StoreAsset _) | Called (StoreEvent _)
  | Called (BeginBundle _) | Called (StoreBundle _) | Called (EndBundle _ _)
  | Called (StoreBundleProofBlock _ _) | Called (UploadProof _) => true
  | _ => false
  end.

(** The method of the collaborator that a call invokes. *)
Definition method (c : anycall) : string :=
  match c with
  | Called CreateKeyPair => "createKeyPair"
  | Called NodePrivateKey => "nodePrivateKey"
  | Called DateNow => "now"
  | Called AccountCount => "count"
  | Called (AccountGet _) => "get"
  | Called (AccountStore _) => "store"
  | Called (AccountUpdate _ _) => "update"
  | Called (StoreAsset _) => "storeAsset"
  | Called (GetAsset _) => "getAsset"
  | Called (StoreEvent _) => "storeEvent"
  | Called (GetEvent _ _) => "getEvent"
  | Called (FindEvents _ _) => "findEvents"
  | Called (BeginBundle _) => "beginBundle"
  | Called (StoreBundle _) => "storeBundle"
  | Called (EndBundle _ _) => "endBundle"
  | Called (GetBundle _) => "getBundle"
  | Called (StoreBundleProofBlock _ _) => "storeBundleProofBlock"
  | Called (UploadProof _) => "uploadProof"
  end.

(** ** Programs: a method body as a tree of calls *)

Inductive prog (R : Type) : Type :=
| Ret (r : R)
| Throw (e : error)
| Call {X : Type} (c : call X) (k : X -> prog R).

Arguments Ret {R} r.
Arguments Throw {R} e.
Arguments Call {R X} c k.

Fixpoint bind {A B} (p : prog A) (f : A -> prog B) : prog B :=
  match p with
  | Ret a => f a
  | Throw e => Throw e
  | Call c k => Call c (fun x => bind (k x) f)
  end.

Definition await {X} (c : call X) : prog X := Call c Ret.

Definition lift {A} (r : result A) : prog A :=
  match r with
  | Ok a => Ret a
  | Err e => Throw e
  end.

Declare Scope prog_scope.
Delimit Scope prog_scope with prog.
Notation "x <- p ;; q" := (bind p (fun x => q))
  (at level 61, p at next level, right associativity) : prog_scope.
Notation "p ;; q" := (bind p (fun _ => q))
  (at level 61, right associativity) : prog_scope.
Local Open Scope prog_scope.

(** A handler answers each call from a state of the outside world; the
    answer may be an exception.  Effects of the calls already made are kept
    when a later step throws. *)
Definition handler (W : Type) : Type :=
  forall X, call X -> W -> W * result X.

Fixpoint exec {W R} (h : handler W) (p : prog R) (w : W)
  : list anycall * W * result R :=
  match p with
  | Ret r => ([], w, Ok r)
  | Throw e => ([], w, Err e)
  | Call c k =>
      match h _ c w with
      | (w', Ok x) =>
          let '(tr, w'', r) := exec h (k x) w' in (Called c :: tr, w'', r)
      | (w', Err e) => ([Called c], w', Err e)
      end
  end.

Definition trace {W R} (h : handler W) (p : prog R) (w : W) : list anycall :=
  fst (fst (exec h p w)).

Definition run {W R} (h : handler W) (p : prog R) (w : W) : W * result R :=
  let '(_, w', r) := exec h p w in (w', r).

(** ** Collaborators injected into the engine

    The constructor of [DataModelEngine] receives its collaborators as
    objects.  Their pure methods are the fields of these interfaces; their
    asynchronous or non-deterministic methods are the [call]s above. *)

Class IdentityManager : Type := {
  calculateHash : value -> string;
  sign : string -> value -> string;
  addressFromSecret : string -> string;
  validateSignature : value -> value -> value -> bool
}.

Class EntityBuilder : Type := {
  validateAsset : value -> result unit;
  validateEvent : value -> result unit;
  setBundle : value -> value -> value;
  removeBundle : value -> value;
  prepareEventForBundlePublication : value -> value;
  validateAndCastFindEventsParams : value -> result value
}.

Class AccountRequestValidation : Type := {
  validateAddAccountRequest : value -> result unit;
  validateModifyAccountRequest : value -> result unit
}.

(** ** Bundle assembler *)

Section BundleBuilder.
Context {identityManager : IdentityManager} {entityBuilder : EntityBuilder}.

(** Modelled from the spec: [checkHashMatches] of the identity manager,
    which is not among the sources; a digest matches a value when it is
    the hash of that value. *)
Definition checkHashMatches (hash data : value) : bool :=
  match hash with
  | VStr h => String.eqb h (calculateHash data)
  | _ => false
  end.

(** Modelled from the spec: [assembleBundle] of the bundle builder, which
    is not among the sources (only its test is); steps 1 to 9 of the
    bundle assembler. *)
Definition assembleBundle (assets events : list value) (timestamp : Z)
           (creatorSecret : string) : value :=
  let assetsStripped := map removeBundle assets in
  let eventsStripped := map removeBundle events in
  let eventsStubbed := map prepareEventForBundlePublication eventsStripped in
  let entries := VArr (assetsStripped ++ eventsStubbed) in
  let entriesHash := calculateHash entries in
  let createdBy := addressFromSecret creatorSecret in
  let idData := VObj [("createdBy", VStr createdBy);
                      ("timestamp", VNum timestamp);
                      ("entriesHash", VStr entriesHash)] in
  let signature := sign creatorSecret idData in
  let content := VObj [("idData", idData);
                       ("signature", VStr signature);
                       ("entries", entries)] in
  let bundleId := calculateHash content in
  VObj [("bundleId", VStr bundleId); ("content", content)].

Definition requiredBundlePaths : list (list string) :=
  [ ["bundleId"];
    ["content"];
    ["content"; "signature"];
    ["content"; "idData"; "createdBy"];
    ["content"; "idData"; "timestamp"];
    ["content"; "idData"; "entriesHash"];
    ["content"; "entries"] ].

Definition bundleFields : list string := ["bundleId"; "content"; "metadata"].
Definition contentFields : list string := ["idData"; "signature"; "entries"].

Definition present (v : value) : bool := negb (is_undefined v).

Definition allowed (fields : list string) (k : string) : bool :=
  existsb (String.eqb k) fields.

Definition ensure (b : bool) : result unit :=
  if b then Ok tt else Err ValidationError.

(** Modelled from the spec: [validateBundle] of the bundle builder, which
    is not among the sources (only its test is).  The structural checks
    come first, then the two hash checks, then the signature.  The closed
    field set of [content] is the one of the data model,
    [{idData, signature, entries}]: [entries] is itself required. *)
Definition validateBundle (bundle : value) : result unit :=
  let content := field bundle "content" in
  let idData := field content "idData" in
  rbind (ensure (forallb (fun p => present (getPath bundle p))
                         requiredBundlePaths)) (fun _ =>
  rbind (ensure (forallb (allowed bundleFields) (keys bundle))) (fun _ =>
  rbind (ensure (forallb (allowed contentFields) (keys content))) (fun _ =>
  rbind (ensure (checkHashMatches (field bundle "bundleId") content)) (fun _ =>
  rbind (ensure (checkHashMatches (field idData "entriesHash")
                                  (field content "entries"))) (fun _ =>
  ensure (validateSignature (field idData "createdBy")
                            (field content "signature") idData)))))).
End BundleBuilder.

(** ** Account access definitions *)

(** Modelled from the spec: [defaultAdminPermissions], not among the
    sources; the list its test expects. *)
Definition defaultAdminPermissions : value :=
  VArr [VStr "change_account_permissions"; VStr "register_account";
        VStr "create_entity"].

(** Modelled from the spec: [hasPermission], not among the sources; a
    membership test on the permissions of the account. *)
Definition hasPermission (account : value) (permission : string) : bool :=
  match field account "permissions" with
  | VArr ps =>
      existsb (fun p => match p with
                        | VStr s => String.eqb s permission
                        | _ => false
                        end) ps
  | _ => false
  end.

(** Modelled from the spec: [ensureHasPermission], not among the sources
    (only its test is); the account is fetched by address, and both an
    unknown account and a known one without the permission are refused with
    a [PermissionError]. *)
Definition ensureHasPermission (address : value) (permission : string)
  : prog unit :=
  account <- await (AccountGet address);;
  if is_null account then Throw PermissionError
  else if hasPermission account permission then Ret tt
  else Throw PermissionError.

(** Modelled from the spec: [getTokenCreatorAccessLevel], not among the
    sources (only its test is); level [0] without a token or without a
    registered creator, the stored level otherwise. *)
Definition getTokenCreatorAccessLevel (tokenData : value) : prog value :=
  match tokenData with
  | VUndefined | VNull => Ret (VNum 0)
  | _ =>
      creatorAccount <- await (AccountGet (field tokenData "createdBy"));;
      if is_null creatorAccount then Ret (VNum 0)
      else lift (prop creatorAccount "accessLevel")
  end.

(** ** The data model engine: [src/services/data_model_engine.js] *)

Section DataModelEngine.
Context {identityManager : IdentityManager} {entityBuilder : EntityBuilder}
        {accountAccessDefinitions : AccountRequestValidation}.

(** [account] is [VUndefined] when the caller passes no argument: the
    default parameter then draws a fresh key pair, before the body runs. *)
Definition createAdminAccount (account : value) : prog value :=
  account <- (if is_undefined account then await CreateKeyPair
              else Ret account);;
  accounts <- await AccountCount;;
  if 0 <? accounts then Throw JsError
  else
    let accountWithPermissions :=
      spreadWith account "permissions" defaultAdminPermissions in
    await (AccountStore accountWithPermissions);;
    Ret account.

Definition addAccount (accountRequest tokenData : value) : prog value :=
  createdBy <- lift (prop tokenData "createdBy");;
  ensureHasPermission createdBy "register_account";;
  lift (validateAddAccountRequest accountRequest);;
  address <- lift (prop accountRequest "address");;
  permissions <- lift (prop accountRequest "permissions");;
  registeredBy <- lift (prop tokenData "createdBy");;
  accessLevel <- lift (prop accountRequest "accessLevel");;
  let accountToStore :=
    VObj [("address", address); ("permissions", permissions);
          ("registeredBy", registeredBy); ("accessLevel", accessLevel)] in
  await (AccountStore accountToStore);;
  Ret accountToStore.

Definition getAccount (address tokenData : value) : prog value :=
  createdBy <- lift (prop tokenData "createdBy");;
  sender <- await (AccountGet createdBy);;
  if falsy sender then Throw PermissionError
  else
    result <- await (AccountGet address);;
    if falsy result then Throw NotFoundError else Ret result.

Definition modifyAccount (accountToChange accountRequest tokenData : value)
  : prog value :=
  createdBy <- lift (prop tokenData "createdBy");;
  ensureHasPermission createdBy "register_account";;
  lift (validateModifyAccountRequest accountRequest);;
  getAccount accountToChange tokenData;;
  await (AccountUpdate accountToChange accountRequest).

Definition createAsset (asset : value) : prog value :=
  lift (validateAsset asset);;
  content <- lift (prop asset "content");;
  idData <- lift (prop content "idData");;
  creatorAddress <- lift (prop idData "createdBy");;
  ensureHasPermission creatorAddress "create_entity";;
  let augmentedAsset := setBundle asset VNull in
  await (StoreAsset augmentedAsset);;
  Ret augmentedAsset.

Definition getAsset (assetId : value) : prog value :=
  asset <- await (GetAsset assetId);;
  if is_null asset then Throw NotFoundError else Ret asset.

Definition createEvent (event : value) : prog value :=
  lift (validateEvent event);;
  content <- lift (prop event "content");;
  idData <- lift (prop content "idData");;
  creatorAddress <- lift (prop idData "createdBy");;
  assetId <- lift (prop idData "assetId");;
  ensureHasPermission creatorAddress "create_entity";;
  asset <- await (GetAsset assetId);;
  if is_null asset then Throw InvalidParametersError
  else
    let augmentedEvent := setBundle event VNull in
    await (StoreEvent augmentedEvent);;
    Ret augmentedEvent.

Definition getEvent (eventId tokenData : value) : prog value :=
  accessLevel <- getTokenCreatorAccessLevel tokenData;;
  event <- await (GetEvent eventId accessLevel);;
  if is_null event then Throw NotFoundError else Ret event.

Definition findEvents (params tokenData : value) : prog value :=
  validatedParams <- lift (validateAndCastFindEventsParams params);;
  accessLevel <- getTokenCreatorAccessLevel tokenData;;
  await (FindEvents validatedParams accessLevel).

Definition getBundle (bundleId : value) : prog value :=
  bundle <- await (GetBundle bundleId);;
  if is_null bundle then Throw NotFoundError else Ret bundle.

Definition finaliseBundle (bundleStubId : value) : prog value :=
  notBundled <- await (BeginBundle bundleStubId);;
  nodeSecret <- await NodePrivateKey;;
  now <- await DateNow;;
  let newBundle :=
    assembleBundle notBundled.(assets) notBundled.(events) now nodeSecret in
  await (StoreBundle newBundle);;
  await (EndBundle bundleStubId (field newBundle "bundleId"));;
  proof <- await (UploadProof (field newBundle "bundleId"));;
  await (StoreBundleProofBlock (field newBundle "bundleId")
                               proof.(blockNumber));;
  Ret newBundle.
End DataModelEngine.

(** ** An in-memory account repository *)

Definition sameId (a b : value) : bool :=
  match a, b with
  | VStr x, VStr y => String.eqb x y
  | _, _ => false
  end.

Fixpoint findAccount (address : value) (docs : list value) : value :=
  match docs with
  | [] => VNull
  | d :: docs' =>
      if sameId (field d "address") address then d
      else findAccount address docs'
  end.

Definition merge (doc partial : value) : value :=
  VObj (fold_left (fun o kv => setProp (fst kv) (snd kv) o)
                  (ownProperties partial) (ownProperties doc)).

Fixpoint updateAccount (address partial : value) (docs : list value)
  : list value :=
  match docs with
  | [] => []
  | d :: docs' =>
      if sameId (field d "address") address then merge d partial :: docs'
      else d :: updateAccount address partial docs'
  end.

(** Modelled from the spec: the account repository, which is not among the
    sources; [count], [get], [store] and [update] over the collection of
    account documents, addresses being strings.  [createKeyPair] hands out
    [keyPair]; the collaborators that are not wired in have no methods. *)
Definition accountRepository (keyPair : value) : handler (list value) :=
  fun X c docs =>
    match c in call X return list value * result X with
    | CreateKeyPair => (docs, Ok keyPair)
    | AccountCount => (docs, Ok (Z.of_nat (List.length docs)))
    | AccountGet address => (docs, Ok (findAccount address docs))
    | AccountStore account => ((docs ++ [account])%list, Ok tt)
    | AccountUpdate address partial =>
        let docs' := updateAccount address partial docs in
        (docs', Ok (findAccount address docs'))
    | _ => (docs, Err TypeError)
    end.

(** ** Test doubles

    The stubs the unit tests of the repository build with sinon, as
    instances of the interfaces: every read is answered from a fixed table
    and every write is accepted. *)

Record Stubs : Type := {
  keyPairStub : value;
  nodePrivateKeyStub : string;
  nowStub : Z;
  countStub : Z;
  accountStub : value -> value;
  assetStub : value -> value;
  beginBundleStub : NotBundled;
  uploadProofStub : result Proof
}.

Definition stubbed (s : Stubs) : handler unit :=
  fun X c w =>
    match c in call X return unit * result X with
    | CreateKeyPair => (w, Ok s.(keyPairStub))
    | NodePrivateKey => (w, Ok s.(nodePrivateKeyStub))
    | DateNow => (w, Ok s.(nowStub))
    | AccountCount => (w, Ok s.(countStub))
    | AccountGet address => (w, Ok (s.(accountStub) address))
    | AccountStore _ => (w, Ok tt)
    | AccountUpdate address partial =>
        (w, Ok (merge (s.(accountStub) address) partial))
    | StoreAsset _ => (w, Ok tt)
    | GetAsset assetId => (w, Ok (s.(assetStub) assetId))
    | StoreEvent _ => (w, Ok tt)
    | GetEvent _ _ => (w, Ok VNull)
    | FindEvents _ _ => (w, Ok (VArr []))
    | BeginBundle _ => (w, Ok s.(beginBundleStub))
    | StoreBundle _ => (w, Ok tt)
    | EndBundle _ _ => (w, Ok tt)
    | GetBundle _ => (w, Ok VNull)
    | StoreBundleProofBlock _ _ => (w, Ok tt)
    | UploadProof _ => (w, s.(uploadProofStub))
    end.

(** A canonical rendering of a value, used by the stub identity manager in
    place of a digest. *)
Fixpoint render (v : value) : string :=
  match v with
  | VUndefined => "undefined"
  | VNull => "null"
  | VBool b => if b then "true" else "false"
  | VNum n => NilZero.string_of_int (Z.to_int n)
  | VStr s => "'" ++ s ++ "'"
  | VArr l =>
      "[" ++ (fix items (l : list value) : string :=
                match l with
                | [] => ""
                | x :: l' => render x ++ "," ++ items l'
                end) l ++ "]"
  | VObj o =>
      "{" ++ (fix members (o : list (string * value)) : string :=
                match o with
                | [] => ""
                | (k, x) :: o' => k ++ ":" ++ render x ++ "," ++ members o'
                end) o ++ "}"
  end.

Definition stubIdentityManager : IdentityManager := {|
  calculateHash := render;
  sign := fun secret payload => secret ++ "/" ++ render payload;
  addressFromSecret := fun secret => "0x" ++ secret;
  validateSignature := fun address signature payload =>
    match address, signature with
    | VStr (String "0" (String "x" secret)), VStr sg =>
        String.eqb sg (secret ++ "/" ++ render payload)
    | _, _ => false
    end
|}.

Definition stubEntityBuilder : EntityBuilder := {|
  validateAsset := fun _ => Ok tt;
  validateEvent := fun _ => Ok tt;
  setBundle := fun entity bundle =>
    spreadWith entity "metadata"
               (spreadWith (field entity "metadata") "bundleId" bundle);
  removeBundle := fun entity =>
    spreadWith entity "metadata"
               (spreadWith (field entity "metadata") "bundleId" VUndefined);
  prepareEventForBundlePublication := fun event =>
    match getPath event ["content"; "idData"; "accessLevel"] with
    | VNum 0 => event
    | _ => spreadWith event "data" VUndefined
    end;
  validateAndCastFindEventsParams := fun params => Ok params
|}.

Definition stubValidation : AccountRequestValidation := {|
  validateAddAccountRequest := fun request =>
    if forallb (fun k => present (field request k))
               ["address"; "permissions"; "accessLevel"]
    then Ok tt else Err ValidationError;
  validateModifyAccountRequest := fun request =>
    if forallb (allowed ["permissions"; "accessLevel"]) (keys request)
    then Ok tt else Err ValidationError
|}.

(** * Properties *)

(** ** Objects *)

Lemma lookup_setProp_same (k : string) (v : value) (o : object) :
  lookup k (setProp k v o) = v.
Proof.
  induction o as [| [k' v'] o IH]; simpl.
  - now rewrite String.eqb_refl.
  - destruct (String.eqb k k') eqn:E; simpl.
    + now rewrite String.eqb_refl.
    + now rewrite E.
Qed.

Lemma lookup_setProp_other (k k' : string) (v : value) (o : object) :
  k <> k' -> lookup k' (setProp k v o) = lookup k' o.
Proof.
  intros Hne. induction o as [| [k0 v0] o IH]; simpl.
  - destruct (String.eqb k' k) eqn:E; [| reflexivity].
    apply String.eqb_eq in E. congruence.
  - destruct (String.eqb k k0) eqn:E; simpl.
    + apply String.eqb_eq in E. subst k0.
      destruct (String.eqb k' k) eqn:E'; [| reflexivity].
      apply String.eqb_eq in E'. congruence.
    + now rewrite IH.
Qed.

Lemma keys_setProp (k k' : string) (v : value) (o : object) :
  In k' (map fst (setProp k v o)) -> k' = k \/ In k' (map fst o).
Proof.
  induction o as [| [k0 v0] o IH]; simpl.
  - intros [H | []]. now left.
  - destruct (String.eqb k k0) eqn:E; simpl.
    + intros [H | H]; [now left | now right; right].
    + intros [H | H]; [now right; left |].
      destruct (IH H) as [-> | H']; [now left | now right; right].
Qed.

Lemma field_spreadWith_same (b : value) (k : string) (v : value) :
  field (spreadWith b k v) k = v.
Proof. apply lookup_setProp_same. Qed.

Lemma field_spreadWith_other (o : object) (k k' : string) (v : value) :
  k <> k' -> field (spreadWith (VObj o) k v) k' = field (VObj o) k'.
Proof. intros H. now apply lookup_setProp_other. Qed.

Lemma forallb_false {A} (f : A -> bool) (l : list A) :
  forallb f l = false <-> exists x, In x l /\ f x = false.
Proof.
  induction l as [| a l IH]; simpl.
  - split; [discriminate | intros (x & [] & _)].
  - rewrite andb_false_iff, IH. split.
    + intros [H | (x & Hin & Hx)]; [exists a | exists x]; auto.
    + intros (x & [-> | Hin] & Hx); [now left | right; now exists x].
Qed.

Lemma allowed_false (fields : list string) (k : string) :
  allowed fields k = false <-> ~ In k fields.
Proof.
  unfold allowed. split.
  - intros H Hin.
    assert (existsb (String.eqb k) fields = true) as E
      by (apply existsb_exists; exists k; split; [assumption | apply String.eqb_refl]).
    congruence.
  - intros H. destruct (existsb (String.eqb k) fields) eqn:E; [| reflexivity].
    apply existsb_exists in E as (x & Hin & Hx).
    apply String.eqb_eq in Hx. subst x. contradiction.
Qed.

Lemma present_false (v : value) : present v = false <-> v = VUndefined.
Proof. destruct v; cbv; split; congruence. Qed.

(** ** Bundle assembler *)

Section BundleBuilderFacts.
Context {identityManager : IdentityManager} {entityBuilder : EntityBuilder}.

(** C1.  [assembleBundle] returns [{bundleId, content}]: the entries are
    the stripped assets followed by the publication stubs of the stripped
    events, one entry per asset and per event; [idData] carries the
    address of the creator secret, the timestamp and the hash of the
    entries; the signature is the one of [idData] under the creator
    secret; the bundle id is the hash of the content. *)
Theorem assembleBundle_shape
  (assets events : list value) (timestamp : Z) (creatorSecret : string) :
  let bundle := assembleBundle assets events timestamp creatorSecret in
  let content := field bundle "content" in
  let idData := field content "idData" in
  let entries :=
    (map removeBundle assets
     ++ map (fun e => prepareEventForBundlePublication (removeBundle e))
            events)%list in
  keys bundle = ["bundleId"; "content"]
  /\ keys content = ["idData"; "signature"; "entries"]
  /\ field content "entries" = VArr entries
  /\ List.length entries = (List.length assets + List.length events)%nat
  /\ idData = VObj [("createdBy", VStr (addressFromSecret creatorSecret));
                    ("timestamp", VNum timestamp);
                    ("entriesHash", VStr (calculateHash (VArr entries)))]
  /\ field content "signature" = VStr (sign creatorSecret idData)
  /\ field bundle "bundleId" = VStr (calculateHash content).
Proof.
  cbv zeta. unfold assembleBundle. cbn [field lookup keys map fst String.eqb Ascii.eqb Bool.eqb].
  rewrite !map_map.
  repeat split; try reflexivity.
  now rewrite length_app, !length_map.
Qed.

Lemma validateBundle_ok_iff (bundle : value) :
  validateBundle bundle = Ok tt <->
  forallb (fun p => present (getPath bundle p)) requiredBundlePaths = true
  /\ forallb (allowed bundleFields) (keys bundle) = true
  /\ forallb (allowed contentFields) (keys (field bundle "content")) = true
  /\ checkHashMatches (field bundle "bundleId") (field bundle "content") = true
  /\ checkHashMatches
       (field (field (field bundle "content") "idData") "entriesHash")
       (field (field bundle "content") "entries") = true
  /\ validateSignature
       (field (field (field bundle "content") "idData") "createdBy")
       (field (field bundle "content") "signature")
       (field (field bundle "content") "idData") = true.
Proof.
  unfold validateBundle, ensure, rbind.
  repeat match goal with
         | |- context [if ?b then _ else _] => destruct b
         end; intuition congruence.
Qed.

Lemma validateBundle_kind (bundle : value) :
  validateBundle bundle = Ok tt \/ validateBundle bundle = Err ValidationError.
Proof.
  unfold validateBundle, ensure, rbind.
  repeat match goal with
         | |- context [if ?b then _ else _] => destruct b
         end; auto.
Qed.

(** C2.  [validateBundle] fails, and then with a [ValidationError],
    exactly when a required field is absent, a field of the bundle or of
    its content is outside the closed sets, one of the two hashes does
    not match, or the signature is refused; it passes otherwise, and a
    bundle that passes still passes with a [metadata] field. *)
Theorem validateBundle_rejects_exactly (bundle : value) :
  let content := field bundle "content" in
  let idData := field content "idData" in
  (validateBundle bundle = Err ValidationError <->
     (exists p, In p requiredBundlePaths /\ getPath bundle p = VUndefined)
     \/ (exists k, In k (keys content) /\ ~ In k contentFields)
     \/ (exists k, In k (keys bundle) /\ ~ In k bundleFields)
     \/ checkHashMatches (field bundle "bundleId") content = false
     \/ checkHashMatches (field idData "entriesHash")
                         (field content "entries") = false
     \/ validateSignature (field idData "createdBy")
                          (field content "signature") idData = false)
  /\ (validateBundle bundle <> Err ValidationError ->
      validateBundle bundle = Ok tt)
  /\ (validateBundle bundle = Ok tt ->
      forall metadata,
        validateBundle (spreadWith bundle "metadata" metadata) = Ok tt).
Proof.
  cbv zeta. split; [| split].
  - split.
    + intros H.
      assert (validateBundle bundle <> Ok tt) as Hno by congruence.
      rewrite validateBundle_ok_iff in Hno.
      destruct (forallb (fun p => present (getPath bundle p))
                        requiredBundlePaths) eqn:E1.
      2:{ left. apply forallb_false in E1 as (p & Hin & Hp).
          exists p. split; [assumption | now apply present_false]. }
      destruct (forallb (allowed bundleFields) (keys bundle)) eqn:E2.
      2:{ right; right; left. apply forallb_false in E2 as (k & Hin & Hk).
          exists k. split; [assumption | now apply allowed_false]. }
      destruct (forallb (allowed contentFields)
                        (keys (field bundle "content"))) eqn:E3.
      2:{ right; left. apply forallb_false in E3 as (k & Hin & Hk).
          exists k. split; [assumption | now apply allowed_false]. }
      destruct (checkHashMatches (field bundle "bundleId")
                                 (field bundle "content")) eqn:E4;
        [| now right; right; right; left].
      destruct (checkHashMatches
                  (field (field (field bundle "content") "idData") "entriesHash")
                  (field (field bundle "content") "entries")) eqn:E5;
        [| now right; right; right; right; left].
      destruct (validateSignature
                  (field (field (field bundle "content") "idData") "createdBy")
                  (field (field bundle "content") "signature")
                  (field (field bundle "content") "idData")) eqn:E6;
        [| now right; right; right; right; right].
      exfalso. apply Hno. repeat split; reflexivity.
    + intros H.
      destruct (validateBundle_kind bundle) as [Hok | Herr]; [| exact Herr].
      exfalso. apply validateBundle_ok_iff in Hok
        as (H1 & H2 & H3 & H4 & H5 & H6).
      destruct H as [(p & Hin & Hp) | [(k & Hin & Hk) | [(k & Hin & Hk) | [H | [H | H]]]]].
      * rewrite forallb_forall in H1. specialize (H1 p Hin).
        rewrite Hp in H1. discriminate.
      * rewrite forallb_forall in H3. specialize (H3 k Hin).
        apply allowed_false in Hk. congruence.
      * rewrite forallb_forall in H2. specialize (H2 k Hin).
        apply allowed_false in Hk. congruence.
      * congruence.
      * congruence.
      * congruence.
  - intros H. destruct (validateBundle_kind bundle); [assumption | contradiction].
  - intros Hok metadata.
    apply validateBundle_ok_iff in Hok as (H1 & H2 & H3 & H4 & H5 & H6).
    destruct bundle as [| | | | | |o]; try discriminate H1.
    assert (forall k, k <> "metadata" ->
              field (spreadWith (VObj o) "metadata" metadata) k = field (VObj o) k)
      as Hf by (intros k Hk; apply field_spreadWith_other; congruence).
    apply validateBundle_ok_iff.
    rewrite !Hf by discriminate.
    repeat split; try assumption.
    + unfold requiredBundlePaths, getPath in *. cbn [forallb fold_left] in *.
      rewrite !Hf by discriminate. exact H1.
    + apply forallb_forall. intros k Hin.
      apply keys_setProp in Hin as [-> | Hin]; [reflexivity |].
      rewrite forallb_forall in H2. now apply H2.
Qed.
(** C3.  Round trip: a bundle assembled under a secret whose signatures
    the identity manager accepts for the derived address passes
    [validateBundle]; and replacing the entries, the [idData] or the
    signature of its content by anything that changes the hash of the
    content (any change at all, short of a hash collision) makes
    [validateBundle] fail with a [ValidationError]. *)
Theorem validateBundle_assembleBundle
  (assets events : list value) (timestamp : Z) (creatorSecret : string) :
  (forall payload,
      validateSignature (VStr (addressFromSecret creatorSecret))
                        (VStr (sign creatorSecret payload)) payload = true) ->
  let bundle := assembleBundle assets events timestamp creatorSecret in
  let content := field bundle "content" in
  validateBundle bundle = Ok tt
  /\ forall part changed,
      In part ["entries"; "idData"; "signature"] ->
      let content' := spreadWith content part changed in
      calculateHash content' <> calculateHash content ->
      validateBundle (spreadWith bundle "content" content') = Err ValidationError.
Proof.
  intros Hsign bundle content. split.
  - apply validateBundle_ok_iff. subst content bundle.
    unfold assembleBundle, checkHashMatches.
    cbn [field lookup keys map fst String.eqb Ascii.eqb Bool.eqb
         requiredBundlePaths getPath fold_left forallb present is_undefined
         negb andb bundleFields contentFields allowed existsb orb].
    rewrite !String.eqb_refl, Hsign. repeat split; reflexivity.
  - intros part changed _ content' Hhash.
    destruct (validateBundle_kind (spreadWith bundle "content" content'))
      as [Hok | Herr]; [exfalso | exact Herr].
    apply validateBundle_ok_iff in Hok as (_ & _ & _ & H4 & _).
    rewrite field_spreadWith_same in H4.
    subst content bundle. unfold assembleBundle, checkHashMatches in H4.
    cbn [field lookup spreadWith setProp ownProperties String.eqb Ascii.eqb
         Bool.eqb] in H4.
    apply String.eqb_eq in H4. apply Hhash. symmetry. exact H4.
Qed.
End BundleBuilderFacts.

Lemma validateBundle_assembleBundle_witness :
  let asset := VObj [("assetId", VStr "0xA1")] in
  let event := VObj [("eventId", VStr "0xE1")] in
  let bundle :=
    @assembleBundle stubIdentityManager stubEntityBuilder
                    [asset] [event] 1000 "secret" in
  @validateBundle stubIdentityManager bundle = Ok tt
  /\ @validateBundle stubIdentityManager
       (spreadWith bundle "content"
                   (spreadWith (field bundle "content") "entries" (VArr [])))
     = Err ValidationError.
Proof.
  intros asset event bundle.
  pose proof (@validateBundle_assembleBundle
                stubIdentityManager stubEntityBuilder
                [asset] [event] 1000 "secret") as H.
  destruct H as [Hok Hchanged].
  - intros payload. simpl. apply String.eqb_refl.
  - split; [exact Hok |].
    apply (Hchanged "entries" (VArr [])).
    + simpl. auto.
    + vm_compute. discriminate.
Defined.

(** ** Running programs *)

Lemma exec_bind {W A B} (h : handler W) (p : prog A) (f : A -> prog B) (w : W) :
  exec h (bind p f) w =
  match exec h p w with
  | (tr, w', Ok a) =>
      let '(tr', w'', r) := exec h (f a) w' in ((tr ++ tr')%list, w'', r)
  | (tr, w', Err e) => (tr, w', Err e)
  end.
Proof.
  revert w. induction p as [a | e | X c k IH]; intros w; simpl.
  - now destruct (exec h (f a) w) as [[tr' w''] r].
  - reflexivity.
  - destruct (h X c w) as [w' [x | e]]; [| reflexivity].
    rewrite IH. destruct (exec h (k x) w') as [[tr w1] [a | e]]; [| reflexivity].
    now destruct (exec h (f a) w1) as [[tr' w''] r].
Qed.

Lemma exec_await {W X} (h : handler W) (c : call X) (w : W) :
  exec h (await c) w =
  match h X c w with
  | (w', Ok x) => ([Called c], w', Ok x)
  | (w', Err e) => ([Called c], w', Err e)
  end.
Proof. simpl. now destruct (h X c w) as [w' [x | e]]. Qed.

(** ** Account access definitions *)

Section AccountAccessFacts.
Context {W : Type} (h : handler W).

Lemma exec_ensureHasPermission (w w' : W) (address account : value)
      (permission : string) :
  h _ (AccountGet address) w = (w', Ok account) ->
  exec h (ensureHasPermission address permission) w =
  ([Called (AccountGet address)], w',
   if is_null account then Err PermissionError
   else if hasPermission account permission then Ok tt
        else Err PermissionError).
Proof.
  intros H. unfold ensureHasPermission. simpl. rewrite H.
  destruct (is_null account); [reflexivity |].
  now destruct (hasPermission account permission).
Qed.

(** C7.  Once the repository has answered the lookup of the address,
    [ensureHasPermission] succeeds exactly when an account was found and
    it holds the permission; when no account was found, and when the
    account lacks the permission, it fails with the same
    [PermissionError], after the same single lookup. *)
Theorem ensureHasPermission_spec (w w' : W) (address account : value)
        (permission : string) :
  h _ (AccountGet address) w = (w', Ok account) ->
  (exec h (ensureHasPermission address permission) w
   = ([Called (AccountGet address)], w', Ok tt)
   <-> account <> VNull /\ hasPermission account permission = true)
  /\ (account = VNull \/ hasPermission account permission = false ->
      exec h (ensureHasPermission address permission) w
      = ([Called (AccountGet address)], w', Err PermissionError))
  /\ (exec h (ensureHasPermission address permission) w
      = ([Called (AccountGet address)], w', Ok tt)
      \/ exec h (ensureHasPermission address permission) w
         = ([Called (AccountGet address)], w', Err PermissionError)).
Proof.
  intros H. rewrite (exec_ensureHasPermission _ _ _ _ _ H).
  assert (is_null account = true <-> account = VNull) as Hnull
    by (destruct account; simpl; split; congruence).
  destruct (is_null account) eqn:En.
  - assert (account = VNull) as -> by now apply Hnull.
    split; [| split]; [split | | ].
    + discriminate.
    + intros [Hne _]. congruence.
    + reflexivity.
    + now right.
  - assert (account <> VNull) as Hne
      by (intros ->; discriminate En).
    destruct (hasPermission account permission) eqn:E.
    + split; [| split]; [tauto | | now left].
      intros [? | ?]; congruence.
    + split; [| split]; [split | | now right].
      * discriminate.
      * intros [_ ?]. congruence.
      * reflexivity.
Qed.

(** C6.  [getTokenCreatorAccessLevel] answers [0] without touching the
    repository when the token is [null] or [undefined]; for any other
    token it looks up the account of [token.createdBy] and answers [0]
    when there is none, and the [accessLevel] stored in the account
    otherwise. *)
Theorem getTokenCreatorAccessLevel_spec (w : W) (tokenData : value) :
  (tokenData = VNull \/ tokenData = VUndefined ->
   exec h (getTokenCreatorAccessLevel tokenData) w = ([], w, Ok (VNum 0)))
  /\ (forall w' account,
        tokenData <> VNull -> tokenData <> VUndefined ->
        h _ (AccountGet (field tokenData "createdBy")) w = (w', Ok account) ->
        (account = VNull ->
         exec h (getTokenCreatorAccessLevel tokenData) w
         = ([Called (AccountGet (field tokenData "createdBy"))], w',
            Ok (VNum 0)))
        /\ (forall o, account = VObj o ->
            exec h (getTokenCreatorAccessLevel tokenData) w
            = ([Called (AccountGet (field tokenData "createdBy"))], w',
               Ok (lookup "accessLevel" o)))).
Proof.
  split.
  - intros [-> | ->]; reflexivity.
  - intros w' account Hnull Hundef Hget.
    assert (exec h (getTokenCreatorAccessLevel tokenData) w
            = exec h (creatorAccount <-
                        await (AccountGet (field tokenData "createdBy"));;
                      if is_null creatorAccount then Ret (VNum 0)
                      else lift (prop creatorAccount "accessLevel")) w) as ->
      by (destruct tokenData; try reflexivity; congruence).
    simpl. rewrite Hget. split.
    + intros ->. reflexivity.
    + intros o ->. reflexivity.
Qed.
End AccountAccessFacts.

Lemma ensureHasPermission_spec_witness :
  let admin := VObj [("address", VStr "0xAD");
                     ("permissions", defaultAdminPermissions)] in
  exec (accountRepository VNull)
       (ensureHasPermission (VStr "0xAD") "topsecret") [admin]
  = ([Called (AccountGet (VStr "0xAD"))], [admin], Err PermissionError)
  /\ exec (accountRepository VNull)
          (ensureHasPermission (VStr "0xAD") "register_account") [admin]
     = ([Called (AccountGet (VStr "0xAD"))], [admin], Ok tt).
Proof.
  intros admin.
  destruct (ensureHasPermission_spec (accountRepository VNull)
              [admin] [admin] (VStr "0xAD") admin "topsecret" eq_refl)
    as (_ & Hfail & _).
  split.
  - apply Hfail. right. reflexivity.
  - reflexivity.
Defined.

Lemma getTokenCreatorAccessLevel_spec_witness :
  let account := [("address", VStr "0xAC"); ("accessLevel", VNum 4)] in
  exec (accountRepository VNull)
       (getTokenCreatorAccessLevel (VObj [("createdBy", VStr "0xAC")]))
       [VObj account]
  = ([Called (AccountGet (VStr "0xAC"))], [VObj account], Ok (VNum 4)).
Proof.
  intros account.
  destruct (getTokenCreatorAccessLevel_spec (accountRepository VNull)
              [VObj account] (VObj [("createdBy", VStr "0xAC")]))
    as (_ & H).
  destruct (H [VObj account] (VObj account)) as (_ & Hstored);
    [discriminate | discriminate | reflexivity |].
  exact (Hstored account eq_refl).
Defined.

(** ** The data model engine *)

Section DataModelEngineFacts.
Context {identityManager : IdentityManager} {entityBuilder : EntityBuilder}
        {accountAccessDefinitions : AccountRequestValidation}.
Context {W : Type} (h : handler W).

Lemma is_null_false (v : value) : is_null v = false <-> v <> VNull.
Proof. destruct v; simpl; split; congruence. Qed.

(** *** [addAccount] *)

Lemma addAccount_refused (w w1 : W) (accountRequest tokenData : value)
      (caller account : value) :
  prop tokenData "createdBy" = Ok caller ->
  h _ (AccountGet caller) w = (w1, Ok account) ->
  account = VNull \/ hasPermission account "register_account" = false ->
  exec h (addAccount accountRequest tokenData) w
  = ([Called (AccountGet caller)], w1, Err PermissionError).
Proof.
  intros Hcaller Hget Hno. unfold addAccount. rewrite Hcaller.
  cbn [lift bind]. rewrite exec_bind.
  rewrite (exec_ensureHasPermission h _ _ _ _ _ Hget).
  destruct Hno as [-> | Hno]; [reflexivity |].
  rewrite Hno. now destruct (is_null account).
Qed.

Lemma addAccount_stored (w w' : W) (accountRequest tokenData stored : value)
      (tr : list anycall) :
  exec h (addAccount accountRequest tokenData) w = (tr, w', Ok stored) ->
  exists caller account w1,
    prop tokenData "createdBy" = Ok caller
    /\ h _ (AccountGet caller) w = (w1, Ok account)
    /\ account <> VNull
    /\ hasPermission account "register_account" = true
    /\ validateAddAccountRequest accountRequest = Ok tt
    /\ stored = VObj [("address", field accountRequest "address");
                      ("permissions", field accountRequest "permissions");
                      ("registeredBy", caller);
                      ("accessLevel", field accountRequest "accessLevel")]
    /\ h _ (AccountStore stored) w1 = (w', Ok tt)
    /\ tr = [Called (AccountGet caller); Called (AccountStore stored)].
Proof.
  unfold addAccount. intros H.
  destruct (prop tokenData "createdBy") as [caller | e] eqn:Hcaller;
    [| discriminate H].
  cbn [lift bind] in H. rewrite exec_bind in H.
  destruct (h _ (AccountGet caller) w) as [w1 [account | e]] eqn:Hget.
  2:{ unfold ensureHasPermission in H. simpl in H. rewrite Hget in H.
      discriminate H. }
  rewrite (exec_ensureHasPermission h _ _ _ _ _ Hget) in H.
  destruct (is_null account) eqn:Hnull; [discriminate H |].
  destruct (hasPermission account "register_account") eqn:Hperm;
    [| discriminate H].
  destruct (validateAddAccountRequest accountRequest) as [[] | e] eqn:Hvalid;
    [| discriminate H].
  destruct (prop accountRequest "address") as [address | e] eqn:Haddress;
    [| discriminate H].
  assert (forall k, prop accountRequest k = Ok (field accountRequest k)) as Hk
    by (intros k; destruct accountRequest; try discriminate Haddress;
        reflexivity).
  rewrite Hk in Haddress. injection Haddress as <-.
  rewrite !Hk in H. cbn [lift bind exec app await] in H.
  match type of H with
  | context [h unit (AccountStore ?a) w1] =>
      destruct (h unit (AccountStore a) w1) as [w2 [[] | e]] eqn:Hstore
  end; [| discriminate H].
  injection H as <- <- <-.
  exists caller, account, w1.
  repeat split; try assumption; try reflexivity.
  now apply is_null_false.
Qed.

(** C9.  [addAccount] checks the [register_account] permission of the
    caller before it looks at the request: whatever the request is, a
    caller without an account or without the permission gets a
    [PermissionError] after the single lookup of the caller, and nothing
    is stored.  When [addAccount] succeeds, the request passed its
    validation, and the record that was stored and returned holds
    [address], [permissions] and [accessLevel] of the request and the
    caller as [registeredBy]. *)
Theorem addAccount_spec (w : W) (accountRequest tokenData : value) :
  (forall caller account w1,
      prop tokenData "createdBy" = Ok caller ->
      h _ (AccountGet caller) w = (w1, Ok account) ->
      account = VNull \/ hasPermission account "register_account" = false ->
      exec h (addAccount accountRequest tokenData) w
      = ([Called (AccountGet caller)], w1, Err PermissionError)
      /\ forallb (fun c => negb (mutating c)) [Called (AccountGet caller)]
         = true)
  /\ (forall tr w' stored,
        exec h (addAccount accountRequest tokenData) w = (tr, w', Ok stored) ->
        exists caller,
          prop tokenData "createdBy" = Ok caller
          /\ validateAddAccountRequest accountRequest = Ok tt
          /\ stored = VObj [("address", field accountRequest "address");
                            ("permissions",
                             field accountRequest "permissions");
                            ("registeredBy", caller);
                            ("accessLevel",
                             field accountRequest "accessLevel")]
          /\ tr = [Called (AccountGet caller); Called (AccountStore stored)]).
Proof.
  split.
  - intros caller account w1 Hcaller Hget Hno.
    split; [now apply addAccount_refused with (account := account) |
            reflexivity].
  - intros tr w' stored H.
    destruct (addAccount_stored _ _ _ _ _ _ H)
      as (caller & account & w1 & H1 & _ & _ & _ & H5 & H6 & _ & H8).
    exists caller. auto.
Qed.
(** *** [modifyAccount] *)

Lemma modifyAccount_refused (w w1 : W)
      (accountToChange accountRequest tokenData caller account : value) :
  prop tokenData "createdBy" = Ok caller ->
  h _ (AccountGet caller) w = (w1, Ok account) ->
  account = VNull \/ hasPermission account "register_account" = false ->
  exec h (modifyAccount accountToChange accountRequest tokenData) w
  = ([Called (AccountGet caller)], w1, Err PermissionError).
Proof.
  intros Hcaller Hget Hno. unfold modifyAccount. rewrite Hcaller.
  cbn [lift bind]. rewrite exec_bind.
  rewrite (exec_ensureHasPermission h _ _ _ _ _ Hget).
  destruct Hno as [-> | Hno]; [reflexivity |].
  rewrite Hno. now destruct (is_null account).
Qed.

Lemma modifyAccount_invalid (w w1 : W)
      (accountToChange accountRequest tokenData caller account : value)
      (e : error) :
  prop tokenData "createdBy" = Ok caller ->
  h _ (AccountGet caller) w = (w1, Ok account) ->
  account <> VNull ->
  hasPermission account "register_account" = true ->
  validateModifyAccountRequest accountRequest = Err e ->
  exec h (modifyAccount accountToChange accountRequest tokenData) w
  = ([Called (AccountGet caller)], w1, Err e).
Proof.
  intros Hcaller Hget Hnull Hperm Hinvalid. unfold modifyAccount.
  rewrite Hcaller. cbn [lift bind]. rewrite exec_bind.
  rewrite (exec_ensureHasPermission h _ _ _ _ _ Hget), Hperm.
  apply is_null_false in Hnull. rewrite Hnull, Hinvalid. reflexivity.
Qed.

Lemma modifyAccount_missing (w w1 w2 w3 : W)
      (accountToChange accountRequest tokenData : value)
      (caller account sender found : value) :
  prop tokenData "createdBy" = Ok caller ->
  h _ (AccountGet caller) w = (w1, Ok account) ->
  account <> VNull ->
  hasPermission account "register_account" = true ->
  validateModifyAccountRequest accountRequest = Ok tt ->
  h _ (AccountGet caller) w1 = (w2, Ok sender) ->
  falsy sender = false ->
  h _ (AccountGet accountToChange) w2 = (w3, Ok found) ->
  falsy found = true ->
  exec h (modifyAccount accountToChange accountRequest tokenData) w
  = ([Called (AccountGet caller); Called (AccountGet caller);
      Called (AccountGet accountToChange)], w3, Err NotFoundError).
Proof.
  intros Hcaller Hget Hnull Hperm Hvalid Hsender Htruthy Hfound Hfalsy.
  unfold modifyAccount, getAccount. rewrite Hcaller.
  cbn [lift bind]. rewrite exec_bind.
  rewrite (exec_ensureHasPermission h _ _ _ _ _ Hget), Hperm.
  apply is_null_false in Hnull. rewrite Hnull, Hvalid.
  simpl. rewrite Hsender, Htruthy. simpl. rewrite Hfound, Hfalsy.
  reflexivity.
Qed.

Lemma modifyAccount_guarded (w w' : W)
      (accountToChange accountRequest tokenData : value)
      (tr : list anycall) (r : result value) :
  exec h (modifyAccount accountToChange accountRequest tokenData) w
  = (tr, w', r) ->
  (existsb mutating tr = true ->
   exists caller account w1 sender w2 found w3,
     prop tokenData "createdBy" = Ok caller
     /\ h _ (AccountGet caller) w = (w1, Ok account)
     /\ account <> VNull
     /\ hasPermission account "register_account" = true
     /\ validateModifyAccountRequest accountRequest = Ok tt
     /\ h _ (AccountGet caller) w1 = (w2, Ok sender)
     /\ falsy sender = false
     /\ h _ (AccountGet accountToChange) w2 = (w3, Ok found)
     /\ falsy found = false
     /\ h _ (AccountUpdate accountToChange accountRequest) w3 = (w', r)
     /\ tr = [Called (AccountGet caller); Called (AccountGet caller);
              Called (AccountGet accountToChange);
              Called (AccountUpdate accountToChange accountRequest)])
  /\ (existsb mutating tr = false ->
      (exists e, r = Err e)
      /\ ((forall address w0, fst (h _ (AccountGet address) w0) = w0) ->
          w' = w)).
Proof.
  unfold modifyAccount, getAccount. intros H.
  destruct (prop tokenData "createdBy") as [caller | e0] eqn:Hcaller.
  2:{ injection H as <- <- <-. split; [discriminate | eauto]. }
  cbn [lift bind] in H. rewrite exec_bind in H.
  destruct (h _ (AccountGet caller) w) as [w1 [account | e0]] eqn:Hget.
  2:{ unfold ensureHasPermission in H. simpl in H. rewrite Hget in H.
      injection H as <- <- <-. split; [discriminate |].
      intros _. split; [eauto |].
      intros Hro. specialize (Hro caller w). now rewrite Hget in Hro. }
  rewrite (exec_ensureHasPermission h _ _ _ _ _ Hget) in H.
  assert ((forall address w0, fst (h _ (AccountGet address) w0) = w0) ->
          w1 = w) as Hw1
    by (intros Hro; specialize (Hro caller w); now rewrite Hget in Hro).
  destruct (is_null account) eqn:Hnull.
  { injection H as <- <- <-. split; [discriminate | eauto]. }
  destruct (hasPermission account "register_account") eqn:Hperm.
  2:{ injection H as <- <- <-. split; [discriminate | eauto]. }
  destruct (validateModifyAccountRequest accountRequest) as [[] | e0]
    eqn:Hvalid.
  2:{ injection H as <- <- <-. split; [discriminate | eauto]. }
  cbn [lift bind await exec app] in H.
  destruct (h _ (AccountGet caller) w1) as [w2 [sender | e0]] eqn:Hsender.
  2:{ injection H as <- <- <-. split; [discriminate |].
      intros _. split; [eauto |].
      intros Hro. rewrite <- (Hw1 Hro).
      specialize (Hro caller w1). now rewrite Hsender in Hro. }
  assert ((forall address w0, fst (h _ (AccountGet address) w0) = w0) ->
          w2 = w) as Hw2
    by (intros Hro; rewrite <- (Hw1 Hro); specialize (Hro caller w1);
        now rewrite Hsender in Hro).
  destruct (falsy sender) eqn:Htruthy.
  { injection H as <- <- <-. split; [discriminate | eauto]. }
  cbn [lift bind await exec app] in H.
  destruct (h _ (AccountGet accountToChange) w2) as [w3 [found | e0]]
    eqn:Hfound.
  2:{ injection H as <- <- <-. split; [discriminate |].
      intros _. split; [eauto |].
      intros Hro. rewrite <- (Hw2 Hro).
      specialize (Hro accountToChange w2). now rewrite Hfound in Hro. }
  assert ((forall address w0, fst (h _ (AccountGet address) w0) = w0) ->
          w3 = w) as Hw3
    by (intros Hro; rewrite <- (Hw2 Hro);
        specialize (Hro accountToChange w2); now rewrite Hfound in Hro).
  destruct (falsy found) eqn:Hfalsy.
  { injection H as <- <- <-. split; [discriminate | eauto]. }
  cbn [lift bind await exec app] in H.
  destruct (h _ (AccountUpdate accountToChange accountRequest) w3)
    as [w4 [updated | e0]] eqn:Hupdate;
    injection H as <- <- <-; (split; [| discriminate]); intros _;
    exists caller, account, w1, sender, w2, found, w3;
    repeat split; try assumption; try reflexivity;
    now apply is_null_false.
Qed.

(** C10.  [modifyAccount] calls the repository update only as its last
    step, after the permission check, the validation of the request and
    the lookup of the target have all succeeded.  A caller without the
    permission gets a [PermissionError], an invalid request the error of
    its validation, a missing target a [NotFoundError]; in each case, and
    whenever no update was issued, the method has failed having issued
    only lookups, so a repository whose lookups change nothing is left
    as it was. *)
Theorem modifyAccount_spec (w : W)
        (accountToChange accountRequest tokenData : value) :
  (forall caller account w1,
      prop tokenData "createdBy" = Ok caller ->
      h _ (AccountGet caller) w = (w1, Ok account) ->
      (account = VNull \/ hasPermission account "register_account" = false ->
       exec h (modifyAccount accountToChange accountRequest tokenData) w
       = ([Called (AccountGet caller)], w1, Err PermissionError))
      /\ (account <> VNull ->
          hasPermission account "register_account" = true ->
          (forall e,
              validateModifyAccountRequest accountRequest = Err e ->
              exec h (modifyAccount accountToChange accountRequest tokenData) w
              = ([Called (AccountGet caller)], w1, Err e))
          /\ (forall sender w2 found w3,
                 validateModifyAccountRequest accountRequest = Ok tt ->
                 h _ (AccountGet caller) w1 = (w2, Ok sender) ->
                 falsy sender = false ->
                 h _ (AccountGet accountToChange) w2 = (w3, Ok found) ->
                 falsy found = true ->
                 exec h (modifyAccount accountToChange accountRequest
                                       tokenData) w
                 = ([Called (AccountGet caller); Called (AccountGet caller);
                     Called (AccountGet accountToChange)], w3,
                    Err NotFoundError))))
  /\ (forall tr w' r,
        exec h (modifyAccount accountToChange accountRequest tokenData) w
        = (tr, w', r) ->
        (existsb mutating tr = true ->
         exists caller account w1 sender w2 found w3,
           prop tokenData "createdBy" = Ok caller
           /\ h _ (AccountGet caller) w = (w1, Ok account)
           /\ account <> VNull
           /\ hasPermission account "register_account" = true
           /\ validateModifyAccountRequest accountRequest = Ok tt
           /\ h _ (AccountGet caller) w1 = (w2, Ok sender)
           /\ falsy sender = false
           /\ h _ (AccountGet accountToChange) w2 = (w3, Ok found)
           /\ falsy found = false
           /\ h _ (AccountUpdate accountToChange accountRequest) w3 = (w', r)
           /\ tr = [Called (AccountGet caller); Called (AccountGet caller);
                    Called (AccountGet accountToChange);
                    Called (AccountUpdate accountToChange accountRequest)])
        /\ (existsb mutating tr = false ->
            (exists e, r = Err e)
            /\ ((forall address w0,
                    fst (h _ (AccountGet address) w0) = w0) ->
                w' = w))).
Proof.
  split.
  - intros caller account w1 Hcaller Hget. split.
    + now apply modifyAccount_refused.
    + intros Hnull Hperm. split.
      * intros e. now apply modifyAccount_invalid with (account := account).
      * intros sender w2 found w3 Hvalid Hsender Htruthy Hfound Hfalsy.
        now apply modifyAccount_missing
          with (w1 := w1) (w2 := w2) (account := account) (sender := sender)
               (found := found).
  - intros tr w' r. apply modifyAccount_guarded.
Qed.
(** *** [createEvent] *)

(** C5.  For an event that passes [validateEvent] and whose creator holds
    [create_entity], [createEvent] fails with [InvalidParametersError]
    when the repository knows no asset under [idData.assetId], before
    anything is stored; when it knows one, the event stamped with an
    unset bundle is stored and returned.  With a repository that accepts
    the event, the failure occurs exactly when the asset is missing. *)
Theorem createEvent_spec (w w1 w2 : W)
        (event content idData creatorAddress assetId account asset : value) :
  validateEvent event = Ok tt ->
  prop event "content" = Ok content ->
  prop content "idData" = Ok idData ->
  prop idData "createdBy" = Ok creatorAddress ->
  prop idData "assetId" = Ok assetId ->
  h _ (AccountGet creatorAddress) w = (w1, Ok account) ->
  account <> VNull ->
  hasPermission account "create_entity" = true ->
  h _ (GetAsset assetId) w1 = (w2, Ok asset) ->
  (asset = VNull ->
   exec h (createEvent event) w
   = ([Called (AccountGet creatorAddress); Called (GetAsset assetId)], w2,
      Err InvalidParametersError))
  /\ (forall w3,
        h _ (StoreEvent (setBundle event VNull)) w2 = (w3, Ok tt) ->
        (asset <> VNull ->
         exec h (createEvent event) w
         = ([Called (AccountGet creatorAddress); Called (GetAsset assetId);
             Called (StoreEvent (setBundle event VNull))], w3,
            Ok (setBundle event VNull)))
        /\ (snd (exec h (createEvent event) w) = Err InvalidParametersError
            <-> asset = VNull)).
Proof.
  intros Hvalid Hcontent HidData Hcreator HassetId Hget Hnull Hperm Hasset.
  assert (forall w3,
             h _ (StoreEvent (setBundle event VNull)) w2 = (w3, Ok tt) ->
             exec h (createEvent event) w
             = if is_null asset
               then ([Called (AccountGet creatorAddress);
                      Called (GetAsset assetId)], w2,
                     Err InvalidParametersError)
               else ([Called (AccountGet creatorAddress);
                      Called (GetAsset assetId);
                      Called (StoreEvent (setBundle event VNull))], w3,
                     Ok (setBundle event VNull))) as Hexec.
  { intros w3 Hstore. unfold createEvent.
    rewrite Hvalid, Hcontent. cbn [lift bind].
    rewrite HidData. cbn [lift bind].
    rewrite Hcreator, HassetId. cbn [lift bind].
    rewrite exec_bind.
    rewrite (exec_ensureHasPermission h _ _ _ _ _ Hget), Hperm.
    apply is_null_false in Hnull. rewrite Hnull.
    cbn [lift bind await exec app]. rewrite Hasset.
    destruct (is_null asset); [reflexivity |].
    cbn [lift bind await exec app]. now rewrite Hstore. }
  split.
  - intros ->. unfold createEvent.
    rewrite Hvalid, Hcontent. cbn [lift bind].
    rewrite HidData. cbn [lift bind].
    rewrite Hcreator, HassetId. cbn [lift bind].
    rewrite exec_bind.
    rewrite (exec_ensureHasPermission h _ _ _ _ _ Hget), Hperm.
    apply is_null_false in Hnull. rewrite Hnull.
    cbn [lift bind await exec app]. now rewrite Hasset.
  - intros w3 Hstore. rewrite (Hexec w3 Hstore). split.
    + intros Hexists. apply is_null_false in Hexists. now rewrite Hexists.
    + destruct (is_null asset) eqn:E; simpl.
      * split; [intros _ | reflexivity]. now destruct asset.
      * split; [discriminate | intros ->; discriminate E].
Qed.

(** *** [finaliseBundle] *)

Lemma finaliseBundle_prefix (w : W) (bundleStubId : value) :
  exists n,
    map method (trace h (finaliseBundle bundleStubId) w)
    = firstn n ["beginBundle"; "nodePrivateKey"; "now"; "storeBundle";
                "endBundle"; "uploadProof"; "storeBundleProofBlock"].
Proof.
  unfold trace, finaliseBundle. cbn [bind await exec].
  destruct (h _ (BeginBundle bundleStubId) w) as [w1 [notBundled | e]];
    [| now exists 1%nat].
  destruct (h _ NodePrivateKey w1) as [w2 [nodeSecret | e]];
    [| now exists 2%nat].
  destruct (h _ DateNow w2) as [w3 [now | e]]; [| now exists 3%nat].
  destruct (h _ (StoreBundle _) w3) as [w4 [[] | e]]; [| now exists 4%nat].
  destruct (h _ (EndBundle _ _) w4) as [w5 [[] | e]]; [| now exists 5%nat].
  destruct (h _ (UploadProof _) w5) as [w6 [proof | e]]; [| now exists 6%nat].
  destruct (h _ (StoreBundleProofBlock _ _) w6) as [w7 [[] | e]];
    now exists 7%nat.
Qed.

(** C8.  [finaliseBundle] issues its calls in one fixed order: claim the
    unbundled entries under the stub id, read the node key, read the
    clock, store the bundle assembled from the claimed entries with that
    key and time, resolve the claim with the id of the bundle, upload the
    proof, record the block number; every run issues a prefix of this
    sequence.  When the upload fails, the bundle has been stored and the
    claim resolved already; when every step succeeds the assembled bundle
    is returned. *)
Theorem finaliseBundle_order (w : W) (bundleStubId : value) :
  (exists n,
      map method (trace h (finaliseBundle bundleStubId) w)
      = firstn n ["beginBundle"; "nodePrivateKey"; "now"; "storeBundle";
                  "endBundle"; "uploadProof"; "storeBundleProofBlock"])
  /\ forall w1 notBundled w2 nodeSecret w3 now w4 w5,
      h _ (BeginBundle bundleStubId) w = (w1, Ok notBundled) ->
      h _ NodePrivateKey w1 = (w2, Ok nodeSecret) ->
      h _ DateNow w2 = (w3, Ok now) ->
      let newBundle :=
        assembleBundle notBundled.(assets) notBundled.(events) now
                       nodeSecret in
      let bundleId := field newBundle "bundleId" in
      let anchoring :=
        [Called (BeginBundle bundleStubId); Called NodePrivateKey;
         Called DateNow; Called (StoreBundle newBundle);
         Called (EndBundle bundleStubId bundleId);
         Called (UploadProof bundleId)] in
      h _ (StoreBundle newBundle) w3 = (w4, Ok tt) ->
      h _ (EndBundle bundleStubId bundleId) w4 = (w5, Ok tt) ->
      bundleId = VStr (calculateHash (field newBundle "content"))
      /\ (forall w6 e,
             h _ (UploadProof bundleId) w5 = (w6, Err e) ->
             exec h (finaliseBundle bundleStubId) w = (anchoring, w6, Err e))
      /\ (forall w6 proof w7,
             h _ (UploadProof bundleId) w5 = (w6, Ok proof) ->
             h _ (StoreBundleProofBlock bundleId proof.(blockNumber)) w6
             = (w7, Ok tt) ->
             exec h (finaliseBundle bundleStubId) w
             = ((anchoring
                 ++ [Called (StoreBundleProofBlock bundleId
                                                   proof.(blockNumber))])%list,
                w7, Ok newBundle)).
Proof.
  split; [apply finaliseBundle_prefix |].
  intros w1 notBundled w2 nodeSecret w3 now w4 w5 Hbegin Hkey Hnow
         newBundle bundleId anchoring Hstore Hend.
  split; [reflexivity |].
  split.
  - intros w6 e Hupload. unfold finaliseBundle.
    cbn [bind await exec]. rewrite Hbegin, Hkey, Hnow.
    fold newBundle. fold bundleId. now rewrite Hstore, Hend, Hupload.
  - intros w6 proof w7 Hupload Hblock. unfold finaliseBundle.
    cbn [bind await exec]. rewrite Hbegin, Hkey, Hnow.
    fold newBundle. fold bundleId.
    now rewrite Hstore, Hend, Hupload, Hblock.
Qed.
End DataModelEngineFacts.

(** *** [createAdminAccount], on the in-memory account repository *)

(** C4.  On the in-memory repository [createAdminAccount] succeeds exactly
    when no account is stored yet.  It then stores the given account (a
    fresh key pair when none is given) with the permissions
    [change_account_permissions], [register_account] and [create_entity],
    and returns the account; any further call fails.  When an account is
    stored already, it fails and stores nothing. *)
Theorem createAdminAccount_genesis
        (keyPair account : value) (docs : list value) :
  let admin := if is_undefined account then keyPair else account in
  let stored := spreadWith admin "permissions" defaultAdminPermissions in
  ((exists docs' returned,
       run (accountRepository keyPair) (createAdminAccount account) docs
       = (docs', Ok returned))
   <-> docs = [])
  /\ (docs = [] ->
      run (accountRepository keyPair) (createAdminAccount account) docs
      = ([stored], Ok admin)
      /\ field stored "permissions"
         = VArr [VStr "change_account_permissions"; VStr "register_account";
                 VStr "create_entity"]
      /\ forall account',
          run (accountRepository keyPair) (createAdminAccount account')
              [stored]
          = ([stored], Err JsError))
  /\ (docs <> [] ->
      run (accountRepository keyPair) (createAdminAccount account) docs
      = (docs, Err JsError)).
Proof.
  intros admin stored.
  assert (docs <> [] ->
          run (accountRepository keyPair) (createAdminAccount account) docs
          = (docs, Err JsError)) as Hfull.
  { intros Hne. destruct docs as [| d docs]; [congruence |].
    unfold run, createAdminAccount. now destruct (is_undefined account). }
  assert (run (accountRepository keyPair) (createAdminAccount account) []
          = ([stored], Ok admin)) as Hempty.
  { subst stored admin. unfold run, createAdminAccount.
    now destruct (is_undefined account). }
  split; [| split].
  - split.
    + intros (docs' & returned & H).
      destruct docs as [| d docs]; [reflexivity |].
      rewrite Hfull in H by discriminate. discriminate H.
    + intros ->. eauto.
  - intros ->. split; [exact Hempty |]. split.
    + apply field_spreadWith_same.
    + intros account'. unfold run, createAdminAccount.
      now destruct (is_undefined account').
  - exact Hfull.
Qed.

Lemma createAdminAccount_genesis_witness :
  let keyPair := VObj [("address", VStr "0xAD"); ("secret", VStr "0x5E")] in
  let stored :=
    VObj [("address", VStr "0xAD"); ("secret", VStr "0x5E");
          ("permissions", defaultAdminPermissions)] in
  run (accountRepository keyPair) (createAdminAccount VUndefined) []
  = ([stored], Ok keyPair)
  /\ run (accountRepository keyPair) (createAdminAccount VUndefined) [stored]
     = ([stored], Err JsError).
Proof.
  intros keyPair stored.
  destruct (createAdminAccount_genesis keyPair VUndefined [])
    as (_ & Hgenesis & _).
  destruct (Hgenesis eq_refl) as (Hfirst & _ & Hsecond).
  split; [exact Hfirst | exact (Hsecond VUndefined)].
Defined.

(** ** The properties at work on the test doubles *)

Lemma validateBundle_rejects_exactly_witness :
  let bundle :=
    assembleBundle (identityManager := stubIdentityManager)
                   (entityBuilder := stubEntityBuilder)
                   [VObj [("assetId", VStr "0xA1")]] [] 1000 "secret" in
  validateBundle (identityManager := stubIdentityManager)
                 (spreadWith bundle "metadata" (VStr "abc")) = Ok tt.
Proof.
  intros bundle.
  destruct (validateBundle_rejects_exactly
              (identityManager := stubIdentityManager) bundle)
    as (_ & _ & Hmetadata).
  apply Hmetadata. vm_compute. reflexivity.
Defined.

Lemma addAccount_spec_witness :
  let admin := VObj [("address", VStr "0xAD");
                     ("permissions", defaultAdminPermissions)] in
  let request := VObj [("address", VStr "0xB0");
                       ("permissions", VArr [VStr "create_entity"]);
                       ("accessLevel", VNum 2)] in
  exec (accountRepository VNull)
       (addAccount (accountAccessDefinitions := stubValidation)
                   VNull (VObj [("createdBy", VStr "0xEE")])) [admin]
  = ([Called (AccountGet (VStr "0xEE"))], [admin], Err PermissionError)
  /\ exists caller,
      prop (VObj [("createdBy", VStr "0xAD")]) "createdBy" = Ok caller
      /\ validateAddAccountRequest (AccountRequestValidation := stubValidation)
                                   request = Ok tt
      /\ VObj [("address", VStr "0xB0");
               ("permissions", VArr [VStr "create_entity"]);
               ("registeredBy", VStr "0xAD");
               ("accessLevel", VNum 2)]
         = VObj [("address", field request "address");
                 ("permissions", field request "permissions");
                 ("registeredBy", caller);
                 ("accessLevel", field request "accessLevel")].
Proof.
  intros admin request.
  destruct (addAccount_spec (accountAccessDefinitions := stubValidation)
              (accountRepository VNull) [admin] VNull
              (VObj [("createdBy", VStr "0xEE")])) as (Hrefused & _).
  destruct (Hrefused (VStr "0xEE") VNull [admin] eq_refl eq_refl
                     (or_introl eq_refl)) as (Hexec & _).
  split; [exact Hexec |].
  destruct (addAccount_spec (accountAccessDefinitions := stubValidation)
              (accountRepository VNull) [admin] request
              (VObj [("createdBy", VStr "0xAD")])) as (_ & Hstored).
  destruct (Hstored _ _ _ eq_refl) as (caller & Hcaller & Hvalid & Hrecord & _).
  exists caller. repeat split; assumption.
Defined.

Lemma modifyAccount_spec_witness :
  let admin := VObj [("address", VStr "0xAD");
                     ("permissions", defaultAdminPermissions)] in
  let request := VObj [("accessLevel", VNum 3)] in
  exec (accountRepository VNull)
       (modifyAccount (accountAccessDefinitions := stubValidation)
                      (VStr "0xB0") request
                      (VObj [("createdBy", VStr "0xAD")])) [admin]
  = ([Called (AccountGet (VStr "0xAD")); Called (AccountGet (VStr "0xAD"));
      Called (AccountGet (VStr "0xB0"))], [admin], Err NotFoundError).
Proof.
  intros admin request.
  destruct (modifyAccount_spec (accountAccessDefinitions := stubValidation)
              (accountRepository VNull) [admin] (VStr "0xB0") request
              (VObj [("createdBy", VStr "0xAD")])) as (Hchecks & _).
  destruct (Hchecks (VStr "0xAD") admin [admin] eq_refl eq_refl)
    as (_ & Hallowed).
  destruct Hallowed as (_ & Hmissing);
    [discriminate | reflexivity |].
  apply (Hmissing admin [admin] VNull [admin]); reflexivity.
Defined.

Lemma createEvent_spec_witness :
  let creator := VObj [("address", VStr "0xC1");
                       ("permissions", VArr [VStr "create_entity"])] in
  let asset := VObj [("assetId", VStr "0xA1")] in
  let idData := VObj [("createdBy", VStr "0xC1"); ("assetId", VStr "0xA1");
                      ("timestamp", VNum 1000); ("accessLevel", VNum 0)] in
  let content := VObj [("idData", idData); ("signature", VStr "0x51")] in
  let event := VObj [("eventId", VStr "0xE1"); ("content", content)] in
  let stubs known := {|
    keyPairStub := VNull; nodePrivateKeyStub := "secret"; nowStub := 1000;
    countStub := 1; accountStub := fun _ => creator;
    assetStub := fun assetId =>
      if (known && sameId assetId (VStr "0xA1"))%bool then asset else VNull;
    beginBundleStub := {| assets := []; events := [] |};
    uploadProofStub := Ok {| blockNumber := VNum 7 |} |} in
  exec (stubbed (stubs false))
       (createEvent (entityBuilder := stubEntityBuilder) event) tt
  = ([Called (AccountGet (VStr "0xC1")); Called (GetAsset (VStr "0xA1"))], tt,
     Err InvalidParametersError)
  /\ exec (stubbed (stubs true))
          (createEvent (entityBuilder := stubEntityBuilder) event) tt
     = ([Called (AccountGet (VStr "0xC1")); Called (GetAsset (VStr "0xA1"));
         Called (StoreEvent
                   (setBundle (EntityBuilder := stubEntityBuilder) event VNull))],
        tt, Ok (setBundle (EntityBuilder := stubEntityBuilder) event VNull)).
Proof.
  intros creator asset idData content event stubs.
  assert (creator <> VNull) as Hcreator by discriminate.
  split.
  - destruct (createEvent_spec (entityBuilder := stubEntityBuilder)
                (stubbed (stubs false)) tt tt tt event content idData
                (VStr "0xC1") (VStr "0xA1") creator VNull
                eq_refl eq_refl eq_refl eq_refl eq_refl eq_refl
                Hcreator eq_refl eq_refl)
      as (Hmissing & _).
    exact (Hmissing eq_refl).
  - destruct (createEvent_spec (entityBuilder := stubEntityBuilder)
                (stubbed (stubs true)) tt tt tt event content idData
                (VStr "0xC1") (VStr "0xA1") creator asset
                eq_refl eq_refl eq_refl eq_refl eq_refl eq_refl
                Hcreator eq_refl eq_refl)
      as (_ & Hknown).
    destruct (Hknown tt eq_refl) as (Hstored & _).
    apply Hstored. discriminate.
Defined.

Lemma finaliseBundle_order_witness :
  let asset id := VObj [("assetId", VStr id)] in
  let event id level :=
    VObj [("eventId", VStr id);
          ("content", VObj [("idData", VObj [("accessLevel", VNum level)])])] in
  let stubs := {|
    keyPairStub := VNull; nodePrivateKeyStub := "secret"; nowStub := 1000;
    countStub := 1; accountStub := fun _ => VNull; assetStub := fun _ => VNull;
    beginBundleStub :=
      {| assets := [asset "0xA1"; asset "0xA2"];
         events := [event "0xE1" 0; event "0xE2" 0; event "0xE3" 1] |};
    uploadProofStub := Ok {| blockNumber := VNum 7 |} |} in
  let newBundle :=
    assembleBundle (identityManager := stubIdentityManager)
                   (entityBuilder := stubEntityBuilder)
                   [asset "0xA1"; asset "0xA2"]
                   [event "0xE1" 0; event "0xE2" 0; event "0xE3" 1]
                   1000 "secret" in
  let bundleId := field newBundle "bundleId" in
  exec (stubbed stubs)
       (finaliseBundle (identityManager := stubIdentityManager)
                       (entityBuilder := stubEntityBuilder) (VStr "stub-1")) tt
  = ([Called (BeginBundle (VStr "stub-1")); Called NodePrivateKey;
      Called DateNow; Called (StoreBundle newBundle);
      Called (EndBundle (VStr "stub-1") bundleId);
      Called (UploadProof bundleId);
      Called (StoreBundleProofBlock bundleId (VNum 7))], tt, Ok newBundle).
Proof.
  intros asset event stubs newBundle bundleId.
  destruct (finaliseBundle_order (identityManager := stubIdentityManager)
              (entityBuilder := stubEntityBuilder)
              (stubbed stubs) tt (VStr "stub-1")) as (_ & Hsteps).
  destruct (Hsteps tt stubs.(beginBundleStub) tt "secret" tt 1000 tt tt
                   eq_refl eq_refl eq_refl eq_refl eq_refl)
    as (_ & _ & Hanchored).
  exact (Hanchored tt {| blockNumber := VNum 7 |} tt eq_refl eq_refl).
Defined.

(** ** Further properties of the engine *)

(** Follows a method body call by call, splitting on every answer. *)
Ltac walk_calls h :=
  repeat match goal with
         | |- context [match h ?X ?c ?w0 with _ => _ end] =>
             destruct (h X c w0) as [? [? | ?]]
         | |- context [if is_null ?x then _ else _] => destruct (is_null x)
         | |- context [if falsy ?x then _ else _] => destruct (falsy x)
         | |- context [prop ?x ?k] => destruct (prop x k)
         | _ => progress cbn [lift bind await exec]
         end;
  try reflexivity.

Section DataModelEngineQueries.
Context {identityManager : IdentityManager} {entityBuilder : EntityBuilder}
        {accountAccessDefinitions : AccountRequestValidation}.
Context {W : Type} (h : handler W).

(** X1.  [getAccount] first looks up the account of the caller: when that
    lookup answers a falsy value the method fails with a [PermissionError]
    and the requested address is never looked up.  Otherwise it looks up
    the requested address and fails with a [NotFoundError] exactly when the
    answer is falsy; the answer is returned as it is, and no permission of
    the caller is consulted. *)
Theorem getAccount_spec (w w1 : W) (address tokenData caller sender : value) :
  prop tokenData "createdBy" = Ok caller ->
  h _ (AccountGet caller) w = (w1, Ok sender) ->
  (falsy sender = true ->
   exec h (getAccount address tokenData) w
   = ([Called (AccountGet caller)], w1, Err PermissionError))
  /\ (falsy sender = false ->
      forall w2 found,
        h _ (AccountGet address) w1 = (w2, Ok found) ->
        exec h (getAccount address tokenData) w
        = ([Called (AccountGet caller); Called (AccountGet address)], w2,
           if falsy found then Err NotFoundError else Ok found)).
Proof.
  intros Hcaller Hsender. unfold getAccount. rewrite Hcaller.
  cbn [lift bind await exec]. rewrite Hsender. split.
  - intros ->. reflexivity.
  - intros -> w2 found Hfound.
    cbn [lift bind await exec]. rewrite Hfound.
    now destruct (falsy found).
Qed.

(** X2.  The five query methods, [getAccount], [getAsset], [getEvent],
    [findEvents] and [getBundle], never call a writing method of a
    repository or of the ledger, whatever their arguments are and whatever
    the collaborators answer. *)
Theorem queries_never_write (w : W) (a b : value) :
  forallb (fun c => negb (mutating c)) (trace h (getAccount a b) w) = true
  /\ forallb (fun c => negb (mutating c)) (trace h (getAsset a) w) = true
  /\ forallb (fun c => negb (mutating c)) (trace h (getEvent a b) w) = true
  /\ forallb (fun c => negb (mutating c)) (trace h (findEvents a b) w) = true
  /\ forallb (fun c => negb (mutating c)) (trace h (getBundle a) w) = true.
Proof.
  unfold trace, getAccount, getAsset, getEvent, findEvents, getBundle,
    getTokenCreatorAccessLevel.
  repeat split.
  - destruct (prop b "createdBy") as [caller | e]; [| reflexivity].
    cbn [lift bind await exec].
    destruct (h _ (AccountGet caller) w) as [w1 [sender | e]];
      [| reflexivity].
    destruct (falsy sender); [reflexivity |].
    cbn [lift bind await exec].
    destruct (h _ (AccountGet a) w1) as [w2 [found | e]]; [| reflexivity].
    now destruct (falsy found).
  - cbn [lift bind await exec].
    destruct (h _ (GetAsset a) w) as [w1 [asset | e]]; [| reflexivity].
    now destruct (is_null asset).
  - destruct b; walk_calls h.
  - destruct (validateAndCastFindEventsParams a) as [params | e];
      [| reflexivity].
    destruct b; walk_calls h.
  - cbn [lift bind await exec].
    destruct (h _ (GetBundle a) w) as [w1 [bundle | e]]; [| reflexivity].
    now destruct (is_null bundle).
Qed.
(** X3.  [getAsset] and [getBundle] fail with a [NotFoundError] exactly
    when the repository answers [null]; every other answer, [undefined]
    included, is returned to the caller as it is. *)
Theorem getAsset_getBundle_spec (w w1 : W) (id found : value) :
  (h _ (GetAsset id) w = (w1, Ok found) ->
   (snd (exec h (getAsset id) w) = Err NotFoundError <-> found = VNull)
   /\ (found <> VNull ->
       exec h (getAsset id) w = ([Called (GetAsset id)], w1, Ok found)))
  /\ (h _ (GetBundle id) w = (w1, Ok found) ->
      (snd (exec h (getBundle id) w) = Err NotFoundError <-> found = VNull)
      /\ (found <> VNull ->
          exec h (getBundle id) w = ([Called (GetBundle id)], w1, Ok found))).
Proof.
  assert (found = VNull \/ found <> VNull) as Hcases
    by (destruct found; (now left) || (right; discriminate)).
  split; intros Hanswer; unfold getAsset, getBundle;
    cbn [lift bind await exec]; rewrite Hanswer;
    (destruct Hcases as [-> | Hne];
     [ cbn [is_null exec snd]; split; [tauto | congruence]
     | apply is_null_false in Hne as Hnull; rewrite Hnull; cbn [exec snd];
       split; [split; [discriminate | congruence] | reflexivity] ]).
Qed.

(** X4.  [getEvent] queries the repository with the access level of the
    creator of the token: level [0], and no account lookup, when the token
    is [null] or [undefined]; level [0] when the creator has no account;
    the [accessLevel] stored in the account otherwise.  It fails with a
    [NotFoundError] exactly when the repository answers [null]. *)
Theorem getEvent_spec (w : W) (eventId tokenData : value) :
  (tokenData = VNull \/ tokenData = VUndefined ->
   forall w1 event,
     h _ (GetEvent eventId (VNum 0)) w = (w1, Ok event) ->
     exec h (getEvent eventId tokenData) w
     = ([Called (GetEvent eventId (VNum 0))], w1,
        if is_null event then Err NotFoundError else Ok event))
  /\ (tokenData <> VNull -> tokenData <> VUndefined ->
      forall w1 account level w2 event,
        h _ (AccountGet (field tokenData "createdBy")) w = (w1, Ok account) ->
        (account = VNull /\ level = VNum 0
         \/ exists o, account = VObj o /\ level = lookup "accessLevel" o) ->
        h _ (GetEvent eventId level) w1 = (w2, Ok event) ->
        exec h (getEvent eventId tokenData) w
        = ([Called (AccountGet (field tokenData "createdBy"));
            Called (GetEvent eventId level)], w2,
           if is_null event then Err NotFoundError else Ok event)).
Proof.
  split.
  - intros Hanonymous w1 event Hevent. unfold getEvent.
    assert (getTokenCreatorAccessLevel tokenData = Ret (VNum 0)) as ->
      by (destruct Hanonymous as [-> | ->]; reflexivity).
    cbn [lift bind await exec]. rewrite Hevent. now destruct (is_null event).
  - intros Hnull Hundef w1 account level w2 event Haccount Hlevel Hevent.
    unfold getEvent.
    assert (getTokenCreatorAccessLevel tokenData
            = (creatorAccount <-
                 await (AccountGet (field tokenData "createdBy"));;
               if is_null creatorAccount then Ret (VNum 0)
               else lift (prop creatorAccount "accessLevel"))) as ->
      by (destruct tokenData; try reflexivity; congruence).
    cbn [lift bind await exec]. rewrite Haccount.
    destruct Hlevel as [[-> ->] | (o & -> & ->)];
      cbn [is_null prop field lift bind await exec];
      rewrite Hevent; now destruct (is_null event).
Qed.
(** X5.  [findEvents] validates the parameters before anything else: when
    the validation fails its error is thrown and no collaborator is called.
    Otherwise the repository is queried with the parameters as cast by the
    validation and with the access level of the creator of the token
    (level [0] for a [null] or [undefined] token), and whatever the
    repository answers, error or not, is the outcome. *)
Theorem findEvents_spec (w : W) (params tokenData : value) :
  (forall e,
      validateAndCastFindEventsParams params = Err e ->
      exec h (findEvents params tokenData) w = ([], w, Err e))
  /\ (forall validatedParams,
         validateAndCastFindEventsParams params = Ok validatedParams ->
         (tokenData = VNull \/ tokenData = VUndefined ->
          forall w1 answer,
            h _ (FindEvents validatedParams (VNum 0)) w = (w1, answer) ->
            exec h (findEvents params tokenData) w
            = ([Called (FindEvents validatedParams (VNum 0))], w1, answer))
         /\ (tokenData <> VNull -> tokenData <> VUndefined ->
             forall w1 o w2 answer,
               h _ (AccountGet (field tokenData "createdBy")) w
               = (w1, Ok (VObj o)) ->
               h _ (FindEvents validatedParams (lookup "accessLevel" o)) w1
               = (w2, answer) ->
               exec h (findEvents params tokenData) w
               = ([Called (AccountGet (field tokenData "createdBy"));
                   Called (FindEvents validatedParams
                                      (lookup "accessLevel" o))],
                  w2, answer))).
Proof.
  unfold findEvents. split.
  - intros e ->. reflexivity.
  - intros validatedParams ->. cbn [lift bind]. split.
    + intros Hanonymous w1 answer Hanswer.
      assert (getTokenCreatorAccessLevel tokenData = Ret (VNum 0)) as ->
        by (destruct Hanonymous as [-> | ->]; reflexivity).
      cbn [lift bind await exec]. rewrite Hanswer. now destruct answer.
    + intros Hnull Hundef w1 o w2 answer Haccount Hanswer.
      assert (getTokenCreatorAccessLevel tokenData
              = (creatorAccount <-
                   await (AccountGet (field tokenData "createdBy"));;
                 if is_null creatorAccount then Ret (VNum 0)
                 else lift (prop creatorAccount "accessLevel"))) as ->
        by (destruct tokenData; try reflexivity; congruence).
      cbn [lift bind await exec]. rewrite Haccount.
      cbn [is_null prop field lift bind await exec].
      rewrite Hanswer. now destruct answer.
Qed.

Lemma trace_call {R X} (c : call X) (k : X -> prog R) (w : W) :
  hd_error (trace h (Call c k) w) = Some (Called c).
Proof.
  unfold trace. cbn [exec].
  destruct (h X c w) as [w' [x | e]]; [| reflexivity].
  now destruct (exec h (k x) w') as [[tr w''] r].
Qed.

(** X6.  [addAccount], [getAccount] and [modifyAccount] read
    [tokenData.createdBy] first.  With a [null] or [undefined] token they
    throw a [TypeError] before any collaborator is called, whatever the
    other arguments are; with any other token their first call is the
    lookup of the account of [tokenData.createdBy]. *)
Theorem token_required (w : W) (a b tokenData : value) :
  (tokenData = VNull \/ tokenData = VUndefined ->
   exec h (addAccount a tokenData) w = ([], w, Err TypeError)
   /\ exec h (getAccount a tokenData) w = ([], w, Err TypeError)
   /\ exec h (modifyAccount a b tokenData) w = ([], w, Err TypeError))
  /\ (tokenData <> VNull -> tokenData <> VUndefined ->
      let firstCall := Called (AccountGet (field tokenData "createdBy")) in
      hd_error (trace h (addAccount a tokenData) w) = Some firstCall
      /\ hd_error (trace h (getAccount a tokenData) w) = Some firstCall
      /\ hd_error (trace h (modifyAccount a b tokenData) w) = Some firstCall).
Proof.
  split.
  - intros [-> | ->]; repeat split.
  - intros Hnull Hundef firstCall. subst firstCall.
    assert (prop tokenData "createdBy" = Ok (field tokenData "createdBy"))
      as Hcaller by (destruct tokenData; try reflexivity; congruence).
    unfold addAccount, getAccount, modifyAccount, ensureHasPermission.
    rewrite Hcaller. cbn [lift bind await].
    repeat split; apply trace_call.
Qed.
End DataModelEngineQueries.

Lemma prop_field (v : value) (k : string) (x : value) :
  prop v k = Ok x -> x = field v k.
Proof. destruct v; simpl; congruence. Qed.

Section DataModelEngineEntities.
Context {identityManager : IdentityManager} {entityBuilder : EntityBuilder}
        {accountAccessDefinitions : AccountRequestValidation}.
Context {W : Type} (h : handler W).

(** X7.  [createAsset] validates the asset before anything else: an
    invalid asset fails with the error of its validation and no
    collaborator is called.  A repository write is issued only for an
    asset that passed the validation and whose creator,
    [content.idData.createdBy], has an account holding [create_entity];
    that write is the last call and stores the asset stamped with an unset
    bundle, which is also what a successful call returns.  A call that
    issues no write has failed. *)
Theorem createAsset_spec (w : W) (asset : value) :
  let creatorAddress := getPath asset ["content"; "idData"; "createdBy"] in
  let augmentedAsset := setBundle asset VNull in
  (forall e,
      validateAsset asset = Err e ->
      exec h (createAsset asset) w = ([], w, Err e))
  /\ (forall tr w' r,
         exec h (createAsset asset) w = (tr, w', r) ->
         (existsb mutating tr = true ->
          validateAsset asset = Ok tt
          /\ exists account w1,
              h _ (AccountGet creatorAddress) w = (w1, Ok account)
              /\ account <> VNull
              /\ hasPermission account "create_entity" = true
              /\ tr = [Called (AccountGet creatorAddress);
                       Called (StoreAsset augmentedAsset)]
              /\ (h _ (StoreAsset augmentedAsset) w1 = (w', Ok tt)
                  /\ r = Ok augmentedAsset
                  \/ exists e,
                      h _ (StoreAsset augmentedAsset) w1 = (w', Err e)
                      /\ r = Err e))
         /\ (existsb mutating tr = false -> exists e, r = Err e)).
Proof.
  intros creatorAddress augmentedAsset. unfold createAsset. split.
  - intros e ->. reflexivity.
  - intros tr w' r H.
    destruct (validateAsset asset) as [[] | e0] eqn:Hvalid.
    2:{ injection H as <- <- <-. split; [discriminate | eauto]. }
    cbn [lift bind] in H.
    destruct (prop asset "content") as [content | e0] eqn:Hcontent.
    2:{ injection H as <- <- <-. split; [discriminate | eauto]. }
    cbn [lift bind] in H.
    destruct (prop content "idData") as [idData | e0] eqn:HidData.
    2:{ injection H as <- <- <-. split; [discriminate | eauto]. }
    cbn [lift bind] in H.
    destruct (prop idData "createdBy") as [creator | e0] eqn:Hcreator.
    2:{ injection H as <- <- <-. split; [discriminate | eauto]. }
    cbn [lift bind] in H.
    apply prop_field in Hcontent, HidData, Hcreator.
    assert (creator = creatorAddress) as ->
      by (subst; reflexivity).
    rewrite exec_bind in H.
    destruct (h _ (AccountGet creatorAddress) w) as [w1 [account | e0]]
      eqn:Hget.
    2:{ unfold ensureHasPermission in H. cbn [lift bind await exec] in H.
        rewrite Hget in H. injection H as <- <- <-.
        split; [discriminate | eauto]. }
    rewrite (exec_ensureHasPermission h _ _ _ _ _ Hget) in H.
    destruct (is_null account) eqn:Hnull.
    { injection H as <- <- <-. split; [discriminate | eauto]. }
    destruct (hasPermission account "create_entity") eqn:Hperm.
    2:{ injection H as <- <- <-. split; [discriminate | eauto]. }
    cbn [lift bind await exec app] in H. fold augmentedAsset in H.
    destruct (h _ (StoreAsset augmentedAsset) w1) as [w2 [[] | e0]]
      eqn:Hstore;
      injection H as <- <- <-; (split; [| discriminate]); intros _;
      (split; [reflexivity |]); exists account, w1;
      repeat split; try assumption; try (now apply is_null_false);
      [left | right]; eauto.
Qed.
(** X8.  [createEvent] validates the event before anything else: an
    invalid event fails with the error of its validation and no
    collaborator is called.  The asset is looked up only for an event that
    passed the validation and whose creator holds [create_entity], and a
    repository write is issued only if, in addition, that lookup did not
    answer [null]; the write is the last call and stores the event stamped
    with an unset bundle.  A call that issues no write has failed. *)
Theorem createEvent_guarded (w : W) (event : value) :
  let creatorAddress := getPath event ["content"; "idData"; "createdBy"] in
  let assetId := getPath event ["content"; "idData"; "assetId"] in
  let augmentedEvent := setBundle event VNull in
  (forall e,
      validateEvent event = Err e ->
      exec h (createEvent event) w = ([], w, Err e))
  /\ (forall tr w' r,
         exec h (createEvent event) w = (tr, w', r) ->
         (existsb (fun c => String.eqb (method c) "getAsset") tr = true ->
          validateEvent event = Ok tt
          /\ exists account w1,
              h _ (AccountGet creatorAddress) w = (w1, Ok account)
              /\ account <> VNull
              /\ hasPermission account "create_entity" = true)
         /\ (existsb mutating tr = true ->
             exists w1 asset w2,
               h _ (GetAsset assetId) w1 = (w2, Ok asset)
               /\ asset <> VNull
               /\ tr = [Called (AccountGet creatorAddress);
                        Called (GetAsset assetId);
                        Called (StoreEvent augmentedEvent)]
               /\ (h _ (StoreEvent augmentedEvent) w2 = (w', Ok tt)
                   /\ r = Ok augmentedEvent
                   \/ exists e,
                       h _ (StoreEvent augmentedEvent) w2 = (w', Err e)
                       /\ r = Err e))
         /\ (existsb mutating tr = false -> exists e, r = Err e)).
Proof.
  intros creatorAddress assetId augmentedEvent. unfold createEvent. split.
  - intros e ->. reflexivity.
  - intros tr w' r H.
    destruct (validateEvent event) as [[] | e0] eqn:Hvalid.
    2:{ injection H as <- <- <-. repeat split; try discriminate; eauto. }
    cbn [lift bind] in H.
    destruct (prop event "content") as [content | e0] eqn:Hcontent.
    2:{ injection H as <- <- <-. repeat split; try discriminate; eauto. }
    cbn [lift bind] in H.
    destruct (prop content "idData") as [idData | e0] eqn:HidData.
    2:{ injection H as <- <- <-. repeat split; try discriminate; eauto. }
    cbn [lift bind] in H.
    destruct (prop idData "createdBy") as [creator | e0] eqn:Hcreator.
    2:{ injection H as <- <- <-. repeat split; try discriminate; eauto. }
    cbn [lift bind] in H.
    destruct (prop idData "assetId") as [assetId0 | e0] eqn:HassetId.
    2:{ injection H as <- <- <-. repeat split; try discriminate; eauto. }
    cbn [lift bind] in H.
    apply prop_field in Hcontent, HidData, Hcreator, HassetId.
    assert (creator = creatorAddress) as -> by (subst; reflexivity).
    assert (assetId0 = assetId) as -> by (subst; reflexivity).
    rewrite exec_bind in H.
    destruct (h _ (AccountGet creatorAddress) w) as [w1 [account | e0]]
      eqn:Hget.
    2:{ unfold ensureHasPermission in H. cbn [lift bind await exec] in H.
        rewrite Hget in H. injection H as <- <- <-.
        repeat split; try discriminate; eauto. }
    rewrite (exec_ensureHasPermission h _ _ _ _ _ Hget) in H.
    destruct (is_null account) eqn:Hnull.
    { injection H as <- <- <-. repeat split; try discriminate; eauto. }
    destruct (hasPermission account "create_entity") eqn:Hperm.
    2:{ injection H as <- <- <-. repeat split; try discriminate; eauto. }
    apply is_null_false in Hnull.
    cbn [lift bind await exec app] in H.
    destruct (h _ (GetAsset assetId) w1) as [w2 [asset | e0]] eqn:Hasset.
    2:{ cbn [app] in H. injection H as <- <- <-.
        split; [intros _; split; [reflexivity |]; exists account, w1;
               repeat split; assumption |]. split; [discriminate | eauto]. }
    destruct (is_null asset) eqn:Hmissing.
    { cbn [exec app] in H. injection H as <- <- <-.
      split; [intros _; split; [reflexivity |]; exists account, w1;
               repeat split; assumption |]. split; [discriminate | eauto]. }
    apply is_null_false in Hmissing.
    cbn [lift bind await exec app] in H. fold augmentedEvent in H.
    destruct (h _ (StoreEvent augmentedEvent) w2) as [w3 [[] | e0]]
      eqn:Hstore;
      injection H as <- <- <-;
      (split; [intros _; split; [reflexivity |]; exists account, w1;
               repeat split; assumption |]); (split; [| discriminate]); intros _;
      exists w1, asset, w2; repeat split; try assumption;
      [left | right]; eauto.
Qed.
End DataModelEngineEntities.

Section DataModelEngineAccounts.
Context {identityManager : IdentityManager} {entityBuilder : EntityBuilder}
        {accountAccessDefinitions : AccountRequestValidation}.
Context {W : Type} (h : handler W).

(** X9.  For a caller whose account holds [register_account], [addAccount]
    fails with the error of the validation when the request is invalid, and
    stores nothing.  For an accepted request it stores a record made of
    [address], [permissions] and [accessLevel] of the request and of the
    caller as [registeredBy], and returns it, whenever the repository
    accepts the record: the requested address is never looked up, so an
    address that is registered already is stored once more. *)
Theorem addAccount_permitted (w w1 : W)
        (accountRequest tokenData caller account : value) :
  prop tokenData "createdBy" = Ok caller ->
  h _ (AccountGet caller) w = (w1, Ok account) ->
  account <> VNull ->
  hasPermission account "register_account" = true ->
  (forall e,
      validateAddAccountRequest accountRequest = Err e ->
      exec h (addAccount accountRequest tokenData) w
      = ([Called (AccountGet caller)], w1, Err e))
  /\ (forall o w2,
         accountRequest = VObj o ->
         validateAddAccountRequest accountRequest = Ok tt ->
         let accountToStore :=
           VObj [("address", lookup "address" o);
                 ("permissions", lookup "permissions" o);
                 ("registeredBy", caller);
                 ("accessLevel", lookup "accessLevel" o)] in
         h _ (AccountStore accountToStore) w1 = (w2, Ok tt) ->
         exec h (addAccount accountRequest tokenData) w
         = ([Called (AccountGet caller); Called (AccountStore accountToStore)],
            w2, Ok accountToStore)).
Proof.
  intros Hcaller Hget Hnull Hperm. apply is_null_false in Hnull.
  unfold addAccount. rewrite Hcaller. cbn [lift bind]. split.
  - intros e Hinvalid. rewrite exec_bind.
    rewrite (exec_ensureHasPermission h _ _ _ _ _ Hget), Hnull, Hperm.
    now rewrite Hinvalid.
  - intros o w2 -> Hvalid Hstore. rewrite exec_bind.
    rewrite (exec_ensureHasPermission h _ _ _ _ _ Hget), Hnull, Hperm.
    rewrite Hvalid. cbn [prop field lift bind await exec app].
    now rewrite Hstore.
Qed.
(** X10.  When every check of [modifyAccount] passes (the caller holds
    [register_account], the request is valid, and the lookups of the
    caller and of the target answer truthy values), the repository update
    is called with the target and the request as they were given, and its
    answer, error or not, is the outcome.  The account of the caller is
    looked up twice on the way. *)
Theorem modifyAccount_applies (w w1 w2 w3 w4 : W)
        (accountToChange accountRequest tokenData : value)
        (caller account sender found : value) (answer : result value) :
  prop tokenData "createdBy" = Ok caller ->
  h _ (AccountGet caller) w = (w1, Ok account) ->
  account <> VNull ->
  hasPermission account "register_account" = true ->
  validateModifyAccountRequest accountRequest = Ok tt ->
  h _ (AccountGet caller) w1 = (w2, Ok sender) ->
  falsy sender = false ->
  h _ (AccountGet accountToChange) w2 = (w3, Ok found) ->
  falsy found = false ->
  h _ (AccountUpdate accountToChange accountRequest) w3 = (w4, answer) ->
  exec h (modifyAccount accountToChange accountRequest tokenData) w
  = ([Called (AccountGet caller); Called (AccountGet caller);
      Called (AccountGet accountToChange);
      Called (AccountUpdate accountToChange accountRequest)], w4, answer).
Proof.
  intros Hcaller Hget Hnull Hperm Hvalid Hsender Htruthy Hfound Hthere
         Hupdate.
  apply is_null_false in Hnull.
  unfold modifyAccount, getAccount. rewrite Hcaller.
  cbn [lift bind]. rewrite exec_bind.
  rewrite (exec_ensureHasPermission h _ _ _ _ _ Hget), Hnull, Hperm, Hvalid.
  cbn [lift bind await exec app]. rewrite Hsender, Htruthy.
  cbn [lift bind await exec app]. rewrite Hfound, Hthere.
  cbn [lift bind await exec app]. rewrite Hupdate. now destruct answer.
Qed.

(** X11.  [createAdminAccount] draws a fresh key pair exactly when it is
    given no account, and does so before it counts the accounts.  With a
    positive count it fails with a plain [Error] and nothing is stored,
    though the key pair has been drawn.  Otherwise it stores the account
    with the default permissions and, when the repository accepts it,
    returns the account as it was given, not the stored record. *)
Theorem createAdminAccount_calls (w w0 w1 : W) (account admin : value)
        (accounts : Z) :
  (if is_undefined account then h _ CreateKeyPair w else (w, Ok account))
  = (w0, Ok admin) ->
  h _ AccountCount w0 = (w1, Ok accounts) ->
  let drawn := if is_undefined account then [Called CreateKeyPair] else [] in
  let accountWithPermissions :=
    spreadWith admin "permissions" defaultAdminPermissions in
  (0 < accounts ->
   exec h (createAdminAccount account) w
   = ((drawn ++ [Called AccountCount])%list, w1, Err JsError))
  /\ (accounts <= 0 ->
      forall w2 answer,
        h _ (AccountStore accountWithPermissions) w1 = (w2, answer) ->
        exec h (createAdminAccount account) w
        = ((drawn ++ [Called AccountCount;
                      Called (AccountStore accountWithPermissions)])%list,
           w2,
           match answer with
           | Ok _ => Ok admin
           | Err e => Err e
           end)).
Proof.
  intros Hadmin Hcount drawn accountWithPermissions.
  subst drawn accountWithPermissions. unfold createAdminAccount.
  destruct (is_undefined account); cbn [lift bind await exec];
    [rewrite Hadmin | injection Hadmin as <- <-];
    cbn [lift bind await exec]; rewrite Hcount; split.
  - intros Hpos. apply Z.ltb_lt in Hpos. now rewrite Hpos.
  - intros Hnone w2 answer Hstore.
    assert ((0 <? accounts) = false) as -> by (apply Z.ltb_ge; lia).
    cbn [lift bind await exec]. rewrite Hstore. now destruct answer as [[] |].
  - intros Hpos. apply Z.ltb_lt in Hpos. now rewrite Hpos.
  - intros Hnone w2 answer Hstore.
    assert ((0 <? accounts) = false) as -> by (apply Z.ltb_ge; lia).
    cbn [lift bind await exec]. rewrite Hstore. now destruct answer as [[] |].
Qed.
End DataModelEngineAccounts.


Section DataModelEngineBundles.
Context {identityManager : IdentityManager} {entityBuilder : EntityBuilder}.
Context {W : Type} (h : handler W).

(** X13.  Whenever [finaliseBundle] reaches the upload of the proof, the
    claim, the key, the clock, the storing of the bundle and the
    resolution of the claim have all succeeded, for the bundle assembled
    from what the claim answered.  Whenever it returns a bundle, the upload
    and the recording of the block number have succeeded too, and the
    bundle returned is that assembled bundle: a failure of any step, the
    last one included, is never answered with a bundle. *)
Theorem finaliseBundle_returns (w w' : W) (bundleStubId : value)
        (tr : list anycall) (r : result value) :
  exec h (finaliseBundle bundleStubId) w = (tr, w', r) ->
  (existsb (fun c => String.eqb (method c) "uploadProof") tr = true
   \/ (exists bundle, r = Ok bundle) ->
   exists w1 notBundled w2 nodeSecret w3 now w4 w5,
     let newBundle :=
       assembleBundle notBundled.(assets) notBundled.(events) now
                      nodeSecret in
     h _ (BeginBundle bundleStubId) w = (w1, Ok notBundled)
     /\ h _ NodePrivateKey w1 = (w2, Ok nodeSecret)
     /\ h _ DateNow w2 = (w3, Ok now)
     /\ h _ (StoreBundle newBundle) w3 = (w4, Ok tt)
     /\ h _ (EndBundle bundleStubId (field newBundle "bundleId")) w4
        = (w5, Ok tt)
     /\ (forall bundle,
            r = Ok bundle ->
            bundle = newBundle
            /\ exists w6 proof,
                h _ (UploadProof (field newBundle "bundleId")) w5
                = (w6, Ok proof)
                /\ h _ (StoreBundleProofBlock (field newBundle "bundleId")
                                              proof.(blockNumber)) w6
                   = (w', Ok tt))).
Proof.
  unfold finaliseBundle. cbn [bind await exec]. intros H Hreached.
  assert (forall e : error,
             (false = true \/ exists bundle : value, Err e = Ok bundle) -> False)
    as Hnever by (intros e [? | [? ?]]; discriminate).
  destruct (h _ (BeginBundle bundleStubId) w) as [w1 [notBundled | e]]
    eqn:Hbegin.
  2:{ injection H as <- <- <-. destruct (Hnever _ Hreached). }
  destruct (h _ NodePrivateKey w1) as [w2 [nodeSecret | e]] eqn:Hkey.
  2:{ injection H as <- <- <-. destruct (Hnever _ Hreached). }
  destruct (h _ DateNow w2) as [w3 [now | e]] eqn:Hnow.
  2:{ injection H as <- <- <-. destruct (Hnever _ Hreached). }
  set (newBundle := assembleBundle notBundled.(assets) notBundled.(events)
                                   now nodeSecret) in *.
  destruct (h _ (StoreBundle newBundle) w3) as [w4 [[] | e]] eqn:Hstore.
  2:{ injection H as <- <- <-. destruct (Hnever _ Hreached). }
  destruct (h _ (EndBundle bundleStubId (field newBundle "bundleId")) w4)
    as [w5 [[] | e]] eqn:Hend.
  2:{ injection H as <- <- <-. destruct (Hnever _ Hreached). }
  exists w1, notBundled, w2, nodeSecret, w3, now, w4, w5.
  cbv zeta. fold newBundle. repeat split; try assumption.
  - destruct (h _ (UploadProof (field newBundle "bundleId")) w5)
      as [w6 [proof | e]] eqn:Hupload; [| injection H as <- <- <-; congruence].
    destruct (h _ (StoreBundleProofBlock (field newBundle "bundleId")
                                         proof.(blockNumber)) w6)
      as [w7 [[] | e]] eqn:Hblock; injection H as <- <- <-; congruence.
  - destruct (h _ (UploadProof (field newBundle "bundleId")) w5)
      as [w6 [proof | e]] eqn:Hupload; [| injection H as <- <- <-; congruence].
    destruct (h _ (StoreBundleProofBlock (field newBundle "bundleId")
                                         proof.(blockNumber)) w6)
      as [w7 [[] | e]] eqn:Hblock; injection H as <- <- <-;
      [| congruence].
    exists w6, proof. split; [reflexivity | exact Hblock].
Qed.
End DataModelEngineBundles.

(** ** The engine on the in-memory account repository *)

Lemma findAccount_first (a : string) (doc : value) (docs : list value) :
  field doc "address" = VStr a -> findAccount (VStr a) (doc :: docs) = doc.
Proof.
  intros H. cbn [findAccount]. rewrite H. cbn [sameId].
  now rewrite String.eqb_refl.
Qed.

Lemma findAccount_next (a b : string) (doc : value) (docs : list value) :
  field doc "address" = VStr a -> a <> b ->
  findAccount (VStr b) (doc :: docs) = findAccount (VStr b) docs.
Proof.
  intros H Hne. cbn [findAccount]. rewrite H. cbn [sameId].
  destruct (String.eqb a b) eqn:E; [| reflexivity].
  apply String.eqb_eq in E. contradiction.
Qed.

Section GenesisAdmin.
Context {accountAccessDefinitions : AccountRequestValidation}.

(** X14.  On the in-memory repository, the admin created by
    [createAdminAccount] from a key pair with a string address can at once
    register accounts: [addAccount] under a token of the admin succeeds for
    every request object the validation accepts, and the repository then
    holds the admin record followed by the new record, which names the
    admin as [registeredBy].  [getAccount] under the same token returns
    that record for the address of the request, when that address is a
    string other than the address of the admin. *)
Theorem genesis_admin_registers (o request : object) (a : string) :
  lookup "address" o = VStr a ->
  validateAddAccountRequest (VObj request) = Ok tt ->
  let keyPair := VObj o in
  let tokenData := VObj [("createdBy", VStr a)] in
  let adminRecord := spreadWith keyPair "permissions" defaultAdminPermissions in
  let record := VObj [("address", lookup "address" request);
                      ("permissions", lookup "permissions" request);
                      ("registeredBy", VStr a);
                      ("accessLevel", lookup "accessLevel" request)] in
  run (accountRepository keyPair)
      (createAdminAccount keyPair;; addAccount (VObj request) tokenData) []
  = ([adminRecord; record], Ok record)
  /\ (forall b,
         lookup "address" request = VStr b -> a <> b ->
         run (accountRepository keyPair) (getAccount (VStr b) tokenData)
             [adminRecord; record]
         = ([adminRecord; record], Ok record)).
Proof.
  intros Haddress Hvalid keyPair tokenData adminRecord record.
  assert (field adminRecord "address" = VStr a) as Hadmin
    by (subst adminRecord keyPair; rewrite field_spreadWith_other;
        [exact Haddress | discriminate]).
  assert (hasPermission adminRecord "register_account" = true) as Hperm
    by (unfold hasPermission; subst adminRecord;
        now rewrite field_spreadWith_same).
  assert (is_null adminRecord = false) as Hnull by reflexivity.
  split.
  - unfold run. rewrite exec_bind.
    change (exec (accountRepository keyPair) (createAdminAccount keyPair) [])
      with ([Called AccountCount; Called (AccountStore adminRecord)],
            [adminRecord], @Ok value keyPair).
    cbv beta iota. unfold addAccount.
    cbn [tokenData prop field lookup String.eqb Ascii.eqb Bool.eqb lift bind].
    rewrite exec_bind.
    rewrite (exec_ensureHasPermission (accountRepository keyPair)
               [adminRecord] [adminRecord] (VStr a) adminRecord
               "register_account")
      by (cbn [accountRepository]; now rewrite findAccount_first).
    rewrite Hnull, Hperm, Hvalid. reflexivity.
  - intros b Hb Hne. unfold run, getAccount.
    cbn [tokenData prop field lookup String.eqb Ascii.eqb Bool.eqb lift bind
         await exec accountRepository].
    rewrite (findAccount_first a adminRecord [record] Hadmin).
    change (falsy adminRecord) with false. cbv iota.
    cbn [lift bind await exec accountRepository].
    rewrite (findAccount_next a b adminRecord [record] Hadmin Hne).
    rewrite (findAccount_first b record []) by exact Hb.
    reflexivity.
Qed.
End GenesisAdmin.

(** ** The further properties at work on the test doubles *)

Lemma getAccount_spec_witness :
  let admin := VObj [("address", VStr "0xAD");
                     ("permissions", defaultAdminPermissions)] in
  let tokenData := VObj [("createdBy", VStr "0xAD")] in
  exec (accountRepository VNull) (getAccount (VStr "0xB0") tokenData) [admin]
  = ([Called (AccountGet (VStr "0xAD")); Called (AccountGet (VStr "0xB0"))],
     [admin], Err NotFoundError).
Proof.
  intros admin tokenData.
  destruct (getAccount_spec (accountRepository VNull) [admin] [admin]
              (VStr "0xB0") tokenData (VStr "0xAD") admin eq_refl eq_refl)
    as (_ & Hknown).
  exact (Hknown eq_refl [admin] VNull eq_refl).
Defined.

Lemma getAsset_getBundle_spec_witness :
  let stubs := {|
    keyPairStub := VNull; nodePrivateKeyStub := "secret"; nowStub := 1000;
    countStub := 0; accountStub := fun _ => VNull;
    assetStub := fun _ => VUndefined;
    beginBundleStub := {| assets := []; events := [] |};
    uploadProofStub := Ok {| blockNumber := VNum 7 |} |} in
  exec (stubbed stubs) (getAsset (VStr "0xA1")) tt
  = ([Called (GetAsset (VStr "0xA1"))], tt, Ok VUndefined)
  /\ snd (exec (stubbed stubs) (getBundle (VStr "0xB1")) tt)
     = Err NotFoundError.
Proof.
  intros stubs.
  destruct (getAsset_getBundle_spec (stubbed stubs) tt tt (VStr "0xA1")
              VUndefined) as (Hasset & _).
  destruct (Hasset eq_refl) as (_ & Hfound).
  destruct (getAsset_getBundle_spec (stubbed stubs) tt tt (VStr "0xB1")
              VNull) as (_ & Hbundle).
  destruct (Hbundle eq_refl) as (Hmissing & _).
  split; [apply Hfound; discriminate | now apply Hmissing].
Defined.

Lemma getEvent_spec_witness :
  let account := [("address", VStr "0xAC"); ("accessLevel", VNum 4)] in
  let tokenData := VObj [("createdBy", VStr "0xAC")] in
  let stubs := {|
    keyPairStub := VNull; nodePrivateKeyStub := "secret"; nowStub := 1000;
    countStub := 1; accountStub := fun _ => VObj account;
    assetStub := fun _ => VNull;
    beginBundleStub := {| assets := []; events := [] |};
    uploadProofStub := Ok {| blockNumber := VNum 7 |} |} in
  exec (stubbed stubs) (getEvent (VStr "0xE1") VNull) tt
  = ([Called (GetEvent (VStr "0xE1") (VNum 0))], tt, Err NotFoundError)
  /\ exec (stubbed stubs) (getEvent (VStr "0xE1") tokenData) tt
     = ([Called (AccountGet (VStr "0xAC"));
         Called (GetEvent (VStr "0xE1") (VNum 4))], tt, Err NotFoundError).
Proof.
  intros account tokenData stubs.
  destruct (getEvent_spec (stubbed stubs) tt (VStr "0xE1") VNull)
    as (Hanonymous & _).
  destruct (getEvent_spec (stubbed stubs) tt (VStr "0xE1") tokenData)
    as (_ & Hknown).
  split.
  - exact (Hanonymous (or_introl eq_refl) tt VNull eq_refl).
  - assert (tokenData <> VNull) as Hnull by discriminate.
    assert (tokenData <> VUndefined) as Hundef by discriminate.
    refine (Hknown Hnull Hundef tt (VObj account) (VNum 4) tt VNull eq_refl _
                   eq_refl).
    right. exists account. split; reflexivity.
Defined.

Lemma findEvents_spec_witness :
  let stubs := {|
    keyPairStub := VNull; nodePrivateKeyStub := "secret"; nowStub := 1000;
    countStub := 0; accountStub := fun _ => VNull;
    assetStub := fun _ => VNull;
    beginBundleStub := {| assets := []; events := [] |};
    uploadProofStub := Ok {| blockNumber := VNum 7 |} |} in
  let params := VObj [("assetId", VStr "0xA1")] in
  exec (stubbed stubs)
       (findEvents (entityBuilder := stubEntityBuilder) params VUndefined) tt
  = ([Called (FindEvents params (VNum 0))], tt, Ok (VArr [])).
Proof.
  intros stubs params.
  destruct (findEvents_spec (entityBuilder := stubEntityBuilder)
              (stubbed stubs) tt params VUndefined) as (_ & Hvalid).
  destruct (Hvalid params eq_refl) as (Hanonymous & _).
  exact (Hanonymous (or_intror eq_refl) tt (Ok (VArr [])) eq_refl).
Defined.

Lemma createAsset_spec_witness :
  let creator := VObj [("address", VStr "0xC1");
                       ("permissions", VArr [VStr "create_entity"])] in
  let idData := VObj [("createdBy", VStr "0xC1"); ("timestamp", VNum 1000)] in
  let asset :=
    VObj [("assetId", VStr "0xA1");
          ("content", VObj [("idData", idData); ("signature", VStr "0x51")])] in
  let stubs := {|
    keyPairStub := VNull; nodePrivateKeyStub := "secret"; nowStub := 1000;
    countStub := 1; accountStub := fun _ => creator;
    assetStub := fun _ => VNull;
    beginBundleStub := {| assets := []; events := [] |};
    uploadProofStub := Ok {| blockNumber := VNum 7 |} |} in
  exists account w1,
    stubbed stubs _ (AccountGet (VStr "0xC1")) tt = (w1, Ok account)
    /\ hasPermission account "create_entity" = true.
Proof.
  intros creator idData asset stubs.
  destruct (createAsset_spec (entityBuilder := stubEntityBuilder)
              (stubbed stubs) tt asset) as (_ & Hguarded).
  destruct (Hguarded _ _ _ eq_refl) as (Hwrite & _).
  destruct (Hwrite eq_refl) as (_ & account & w1 & Hget & _ & Hperm & _).
  exists account, w1. split; assumption.
Defined.

Lemma createEvent_guarded_witness :
  let creator := VObj [("address", VStr "0xC1");
                       ("permissions", VArr [VStr "create_entity"])] in
  let idData := VObj [("createdBy", VStr "0xC1"); ("assetId", VStr "0xA1")] in
  let event :=
    VObj [("eventId", VStr "0xE1");
          ("content", VObj [("idData", idData); ("signature", VStr "0x51")])] in
  let stubs := {|
    keyPairStub := VNull; nodePrivateKeyStub := "secret"; nowStub := 1000;
    countStub := 1; accountStub := fun _ => creator;
    assetStub := fun _ => VObj [("assetId", VStr "0xA1")];
    beginBundleStub := {| assets := []; events := [] |};
    uploadProofStub := Ok {| blockNumber := VNum 7 |} |} in
  exists w1 asset w2,
    stubbed stubs _ (GetAsset (VStr "0xA1")) w1 = (w2, Ok asset)
    /\ asset <> VNull.
Proof.
  intros creator idData event stubs.
  destruct (createEvent_guarded (entityBuilder := stubEntityBuilder)
              (stubbed stubs) tt event) as (_ & Hguarded).
  destruct (Hguarded _ _ _ eq_refl) as (_ & Hwrite & _).
  destruct (Hwrite eq_refl) as (w1 & asset & w2 & Hasset & Hfound & _).
  exists w1, asset, w2. split; assumption.
Defined.

Lemma addAccount_permitted_witness :
  let admin := VObj [("address", VStr "0xAD");
                     ("permissions", defaultAdminPermissions)] in
  let request := [("address", VStr "0xAD"); ("permissions", VArr []);
                  ("accessLevel", VNum 0)] in
  let record := VObj [("address", VStr "0xAD"); ("permissions", VArr []);
                      ("registeredBy", VStr "0xAD");
                      ("accessLevel", VNum 0)] in
  exec (accountRepository VNull)
       (addAccount (accountAccessDefinitions := stubValidation)
                   (VObj request) (VObj [("createdBy", VStr "0xAD")])) [admin]
  = ([Called (AccountGet (VStr "0xAD")); Called (AccountStore record)],
     [admin; record], Ok record).
Proof.
  intros admin request record.
  assert (admin <> VNull) as Hadmin by discriminate.
  destruct (addAccount_permitted (accountAccessDefinitions := stubValidation)
              (accountRepository VNull) [admin] [admin] (VObj request)
              (VObj [("createdBy", VStr "0xAD")]) (VStr "0xAD") admin
              eq_refl eq_refl Hadmin eq_refl) as (_ & Hstored).
  exact (Hstored request [admin; record] eq_refl eq_refl eq_refl).
Defined.

Lemma modifyAccount_applies_witness :
  let admin := VObj [("address", VStr "0xAD");
                     ("permissions", defaultAdminPermissions)] in
  let target := VObj [("address", VStr "0xB0"); ("accessLevel", VNum 0)] in
  let request := VObj [("accessLevel", VNum 3)] in
  let updated := VObj [("address", VStr "0xB0"); ("accessLevel", VNum 3)] in
  exec (accountRepository VNull)
       (modifyAccount (accountAccessDefinitions := stubValidation)
                      (VStr "0xB0") request
                      (VObj [("createdBy", VStr "0xAD")])) [admin; target]
  = ([Called (AccountGet (VStr "0xAD")); Called (AccountGet (VStr "0xAD"));
      Called (AccountGet (VStr "0xB0"));
      Called (AccountUpdate (VStr "0xB0") request)],
     [admin; updated], Ok updated).
Proof.
  intros admin target request updated.
  assert (admin <> VNull) as Hadmin by discriminate.
  exact (modifyAccount_applies (accountAccessDefinitions := stubValidation)
           (accountRepository VNull)
           [admin; target] [admin; target] [admin; target] [admin; target]
           [admin; updated] (VStr "0xB0") request
           (VObj [("createdBy", VStr "0xAD")]) (VStr "0xAD") admin admin
           target (Ok updated)
           eq_refl eq_refl Hadmin eq_refl eq_refl eq_refl eq_refl eq_refl
           eq_refl eq_refl).
Defined.

Lemma createAdminAccount_calls_witness :
  let keyPair := VObj [("address", VStr "0xAD"); ("secret", VStr "0x5E")] in
  let existing := VObj [("address", VStr "0xB0")] in
  exec (accountRepository keyPair) (createAdminAccount VUndefined) [existing]
  = ([Called CreateKeyPair; Called AccountCount], [existing], Err JsError).
Proof.
  intros keyPair existing.
  destruct (createAdminAccount_calls (accountRepository keyPair)
              [existing] [existing] [existing] VUndefined keyPair 1
              eq_refl eq_refl) as (Hrefused & _).
  apply Hrefused. lia.
Defined.


Lemma finaliseBundle_returns_witness :
  let stubs := {|
    keyPairStub := VNull; nodePrivateKeyStub := "secret"; nowStub := 1000;
    countStub := 0; accountStub := fun _ => VNull;
    assetStub := fun _ => VNull;
    beginBundleStub :=
      {| assets := [VObj [("assetId", VStr "0xA1")]]; events := [] |};
    uploadProofStub := Err JsError |} in
  exists nodeSecret now w3 w4,
    stubbed stubs _ (StoreBundle
                       (assembleBundle (identityManager := stubIdentityManager)
                                       (entityBuilder := stubEntityBuilder)
                                       stubs.(beginBundleStub).(assets)
                                       stubs.(beginBundleStub).(events)
                                       now nodeSecret)) w3
    = (w4, Ok tt).
Proof.
  intros stubs.
  destruct (finaliseBundle_returns (identityManager := stubIdentityManager)
              (entityBuilder := stubEntityBuilder)
              (stubbed stubs) tt tt (VStr "stub-1") _ _ eq_refl
              (or_introl eq_refl))
    as (w1 & notBundled & w2 & nodeSecret & w3 & now & w4 & w5 & Hsteps).
  cbv zeta in Hsteps.
  destruct Hsteps as (Hbegin & _ & _ & Hstore & _).
  injection Hbegin as _ <-.
  exists nodeSecret, now, w3, w4. exact Hstore.
Defined.

Lemma genesis_admin_registers_witness :
  let keyPair := VObj [("address", VStr "0xAD"); ("secret", VStr "0x5E")] in
  let adminRecord :=
    VObj [("address", VStr "0xAD"); ("secret", VStr "0x5E");
          ("permissions", defaultAdminPermissions)] in
  let request := VObj [("address", VStr "0xB0");
                       ("permissions", VArr [VStr "create_entity"]);
                       ("accessLevel", VNum 2)] in
  let record := VObj [("address", VStr "0xB0");
                      ("permissions", VArr [VStr "create_entity"]);
                      ("registeredBy", VStr "0xAD");
                      ("accessLevel", VNum 2)] in
  run (accountRepository keyPair)
      (createAdminAccount keyPair;;
       addAccount (accountAccessDefinitions := stubValidation) request
                  (VObj [("createdBy", VStr "0xAD")])) []
  = ([adminRecord; record], Ok record).
Proof.
  intros keyPair adminRecord request record.
  destruct (genesis_admin_registers
              (accountAccessDefinitions := stubValidation)
              [("address", VStr "0xAD"); ("secret", VStr "0x5E")]
              [("address", VStr "0xB0");
               ("permissions", VArr [VStr "create_entity"]);
               ("accessLevel", VNum 2)] "0xAD" eq_refl eq_refl)
    as (Hregistered & _).
  exact Hregistered.
Defined.

Lemma token_required_witness :
  let tokenData := VObj [("validUntil", VNum 1000)] in
  hd_error (trace (accountRepository VNull)
                  (getAccount (VStr "0xB0") tokenData) [])
  = Some (Called (AccountGet VUndefined)).
Proof.
  intros tokenData.
  destruct (token_required (accountAccessDefinitions := stubValidation)
              (accountRepository VNull) [] (VStr "0xB0") VNull tokenData)
    as (_ & Hpresent).
  assert (tokenData <> VNull) as Hnull by discriminate.
  assert (tokenData <> VUndefined) as Hundef by discriminate.
  destruct (Hpresent Hnull Hundef) as (_ & Hget & _).
  exact Hget.
Defined.
